(** * Battery health report: the report pipeline of [battery_report.py]

    A shallow embedding of [compute_soh], [count_cycles_from_soc],
    [detect_anomalies] and [generate_report], and the properties the design
    document states about them.

    Conventions of the embedding.
    - A Python [float] is a binary64 number: Rocq's primitive [float], whose
      operations are the IEEE ones Python uses.  A Python [int] is a [Z].
    - The log is the dictionary [raw].  Its keys are the fields of the
      record [raw]; a key that is missing from the dictionary is [None].
      Fields carry the types of the request schema of [api.py]
      ([float] for capacities, voltages and temperatures, [int] for
      [cell_count] and [soc]); a number that a log gives as an int where
      the schema has a float stands for the float of the same value.  A log
      that maps a key to Python's [None], or to a value of another type, is
      not a value of [raw].
    - An exception is a value [Raise e] of type [outcome].
    - Functions run in the monad [M]: they receive a store holding the
      caller's dictionary (passed by reference) and the list objects the
      call allocates, and return the store they leave behind. *)

From Stdlib Require Import ZArith List String Bool Floats Lia DecimalString.
From Stdlib Require Uint63.
Import ListNotations.

Set Warnings "-inexact-float".

Open Scope Z_scope.

(** ** Exceptions and results *)

Inductive exn : Type :=
| KeyError (key : string)
| IndexError
| ValueError
| ZeroDivisionError
| OverflowError.

Inductive outcome (A : Type) : Type :=
| Ok (a : A)
| Raise (e : exn).

Arguments Ok {A} a.
Arguments Raise {A} e.

Definition outcome_bind {A B} (o : outcome A) (k : A -> outcome B) : outcome B :=
  match o with
  | Ok a => k a
  | Raise e => Raise e
  end.

Definition outcome_map {A B} (f : A -> B) (o : outcome A) : outcome B :=
  outcome_bind o (fun a => Ok (f a)).

(** ** Python numbers *)

Module Num.

(** A number is an [int] or a [float]; the report holds both kinds
    (the literal [0] of the "unknown" branch is an [int]). *)
Inductive number : Type :=
| Int (z : Z)
| Float (f : float).

Definition sf_of_Z (z : Z) : spec_float :=
  match z with
  | Z0 => S754_zero false
  | Zpos p => S754_finite false p 0
  | Zneg p => S754_finite true p 0
  end.

(** The least magnitude that rounds to 2^1024, that is, out of the range
    of a binary64 number: halfway between the largest float and 2^1024. *)
Definition DBL_OVERFLOW : Z := 2 ^ 1024 - 2 ^ 970.

(** [sys.maxsize]: the greatest length a Python sequence can have. *)
Definition PY_SSIZE_T_MAX : Z := 2 ^ 63 - 1.

(** [float(z)]: the nearest binary64 number, ties to even;
    "int too large to convert to float" when there is none. *)
Definition float_of_int (z : Z) : outcome float :=
  if DBL_OVERFLOW <=? Z.abs z then Raise OverflowError
  else Ok (SF2Prim (binary_normalize prec emax z 0 false)).

Definition to_float (a : number) : outcome float :=
  match a with
  | Int z => float_of_int z
  | Float f => Ok f
  end.

(** [a / b] on floats: "float division by zero" when [b == 0.0]. *)
Definition float_truediv (a b : float) : outcome float :=
  if (b =? 0)%float then Raise ZeroDivisionError else Ok (a / b)%float.

(** [a / b] on ints: the correctly rounded quotient; "integer division
    result too large for a float" when it rounds out of range. *)
Definition int_truediv (a b : Z) : outcome float :=
  if b =? 0 then Raise ZeroDivisionError
  else if Z.abs b * DBL_OVERFLOW <=? Z.abs a then Raise OverflowError
  else Ok (SF2Prim (SFdiv prec emax (sf_of_Z a) (sf_of_Z b))).

(** The operator [/]. *)
Definition truediv (a b : number) : outcome float :=
  match a, b with
  | Int x, Int y => int_truediv x y
  | _, _ =>
      outcome_bind (to_float a) (fun x =>
      outcome_bind (to_float b) (fun y => float_truediv x y))
  end.

(** The nearest integer to [num / den] ([den] positive), ties to even. *)
Definition round_half_even (num den : Z) : Z :=
  let q := num / den in
  match (2 * (num mod den)) ?= den with
  | Lt => q
  | Gt => q + 1
  | Eq => if Z.even q then q else q + 1
  end.

(** [round(x, ndigits)] on a float, [ndigits >= 0]: the decimal number
    with [ndigits] digits after the point that is nearest to the exact
    value of [x] (ties to even), converted back to the nearest float.
    Infinities, NaN and zeros round to themselves. *)
Definition py_round (x : float) (ndigits : nat) : float :=
  match Prim2SF x with
  | S754_finite s m e =>
      let p := 10 ^ Z.of_nat ndigits in
      let n := if 0 <=? e then Z.pos m * 2 ^ e * p
               else round_half_even (Z.pos m * p) (2 ^ (- e)) in
      match n with
      | Zpos k => SF2Prim (SFdiv prec emax (S754_finite s k 0) (sf_of_Z p))
      | _ => if s then neg_zero else zero
      end
  | _ => x
  end.

(** [sum] of a sequence of floats: starts from the int [0] and adds from
    the left.  (CPython 3.12 and later also carry a compensation term for
    the rounding errors; the properties below are stated for the mean that
    [sum] gives, and their instances are sums that are exact.) *)
Definition sum_floats (l : list float) : number :=
  match l with
  | [] => Int 0
  | _ => Float (fold_left PrimFloat.add l 0%float)
  end.

(** [sum] of a sequence of ints. *)
Definition sum_ints (l : list Z) : Z := fold_left Z.add l 0.

(** [max] and [min]: the first item is the candidate; a later item
    replaces it when it compares strictly greater (smaller). *)
Definition py_max (l : list float) : outcome float :=
  match l with
  | [] => Raise ValueError
  | x :: r => Ok (fold_left (fun m y => if (m <? y)%float then y else m) r x)
  end.

Definition py_min (l : list float) : outcome float :=
  match l with
  | [] => Raise ValueError
  | x :: r => Ok (fold_left (fun m y => if (y <? m)%float then y else m) r x)
  end.

(** [str] of an int. *)
Definition str_int (z : Z) : string := NilZero.string_of_int (Z.to_int z).

End Num.
Export Num.

(** ** The data model *)

(** An item of [cells]. *)
Record cell : Type := {
  id : option Z;
  voltage : float;
  temp_c : float
}.

(** An item of [soc_timeseries]. *)
Record soc_reading : Type := {
  ts : option string;
  soc : Z
}.

(** An item of [cycle_history]; [compute_soh] reads [energy_kwh] only. *)
Record cycle : Type := {
  energy_kwh : option float
}.

(** The diagnostic log; [None] is a key that the dictionary lacks. *)
Record raw : Type := {
  vehicle_id : option string;
  nominal_capacity_kwh : option float;
  measured_capacity_kwh : option float;
  pack_voltage : option float;
  cell_count : option Z;
  cells : option (list cell);
  soc_timeseries : option (list soc_reading);
  cycle_history : option (list cycle)
}.

(** The three parts of the report. *)
Record soh : Type := {
  soh_percent : number;
  method : string;
  confidence : string
}.

Record cycles : Type := {
  equivalent_full_cycles : number;
  deep_cycles : Z
}.

Record anomaly : Type := {
  type : string;
  severity : string;
  value : float
}.

(** ** The store and the monad *)

(** The address of a list object. *)
Definition loc : Type := nat.

(** The store: the dictionary the caller passed, and the list objects
    created so far (a list is mutated in place by [append]). *)
Record store : Type := {
  input : raw;
  heap : list (list anomaly)
}.

Definition M (A : Type) : Type := store -> outcome A * store.

Definition ret {A} (a : A) : M A := fun st => (Ok a, st).

Definition raise {A} (e : exn) : M A := fun st => (Raise e, st).

Definition bind {A B} (c : M A) (k : A -> M B) : M B :=
  fun st =>
    match c st with
    | (Ok a, st') => k a st'
    | (Raise e, st') => (Raise e, st')
    end.

Definition lift {A} (o : outcome A) : M A := fun st => (o, st).

Declare Scope py_scope.
Delimit Scope py_scope with py.
Notation "x <- c ;; k" := (bind c (fun x => k))
  (at level 61, c at next level, right associativity) : py_scope.
Notation "c ;; k" := (bind c (fun _ => k))
  (at level 61, right associativity) : py_scope.
Open Scope py_scope.

(** *** Reading the dictionary *)

(** [key in raw] *)
Definition contains {A} (field : raw -> option A) : M bool :=
  fun st =>
    match field (input st) with
    | Some _ => (Ok true, st)
    | None => (Ok false, st)
    end.

(** [raw[key]] *)
Definition getitem {A} (key : string) (field : raw -> option A) : M A :=
  fun st =>
    match field (input st) with
    | Some v => (Ok v, st)
    | None => (Raise (KeyError key), st)
    end.

(** [raw.get(key, default)] *)
Definition get_default {A} (field : raw -> option A) (default : A) : M A :=
  fun st =>
    match field (input st) with
    | Some v => (Ok v, st)
    | None => (Ok default, st)
    end.

(** [c[key]] on an item of a sequence. *)
Definition item {A} (key : string) (field : option A) : M A :=
  match field with
  | Some v => ret v
  | None => raise (KeyError key)
  end.

(** [l[i]] for [i >= 0]. *)
Definition getindex {A} (l : list A) (i : nat) : M A :=
  match nth_error l i with
  | Some v => ret v
  | None => raise IndexError
  end.

(** [len(l)] *)
Definition len {A} (l : list A) : Z := Z.of_nat (List.length l).

(** The truth value of a list. *)
Definition truthy {A} (l : list A) : bool :=
  match l with
  | [] => false
  | _ => true
  end.

(** [a and b]: [b] is evaluated only when [a] is true. *)
Definition py_and (a b : M bool) : M bool :=
  x <- a ;; if x then b else ret false.

(** *** List objects *)

Fixpoint update {A} (l : list A) (i : nat) (v : A) : list A :=
  match l, i with
  | [], _ => []
  | _ :: r, O => v :: r
  | x :: r, S j => x :: update r j v
  end.

(** [[]]: a new, empty list object. *)
Definition new_list : M loc :=
  fun st => (Ok (List.length (heap st)),
             {| input := input st; heap := heap st ++ [[]] |}).

(** [l.append(a)] *)
Definition list_append (l : loc) (a : anomaly) : M unit :=
  fun st => (Ok tt,
             {| input := input st;
                heap := update (heap st) l (nth l (heap st) [] ++ [a]) |}).

(** The items of the list object [l]. *)
Definition list_items (l : loc) : M (list anomaly) :=
  fun st => (Ok (nth l (heap st) []), st).

(** *** Loops *)

(** The values a generator expression or a comprehension yields. *)
Fixpoint for_each {A B} (f : A -> M B) (l : list A) : M (list B) :=
  match l with
  | [] => ret []
  | a :: r => b <- f a ;; bs <- for_each f r ;; ret (b :: bs)
  end.

(** A [for] loop that updates one local variable. *)
Fixpoint for_loop {A S} (l : list A) (body : A -> S -> M S) (s : S) : M S :=
  match l with
  | [] => ret s
  | a :: r => s' <- body a s ;; for_loop r body s'
  end.

(** [range(1, n)] *)
Definition range1 (n : Z) : list nat := seq 1 (Z.to_nat n - 1).

(** ** [compute_soh] *)

Definition compute_soh : M soh :=
  c <- py_and (contains measured_capacity_kwh) (contains nominal_capacity_kwh) ;;
  if c then
    m <- getitem "measured_capacity_kwh" measured_capacity_kwh ;;
    n <- getitem "nominal_capacity_kwh" nominal_capacity_kwh ;;
    q <- lift (truediv (Float m) (Float n)) ;;
    let soh_percent := (q * 100)%float in
    ret {| soh_percent := Float (py_round soh_percent 2);
           method := "measured_capacity"; confidence := "high" |}
  else
  c <- py_and (contains cycle_history)
              (h <- getitem "cycle_history" cycle_history ;; ret (truthy h)) ;;
  if c then
    h <- getitem "cycle_history" cycle_history ;;
    es <- for_each (fun c => item "energy_kwh" (energy_kwh c)) h ;;
    let total_energy := sum_floats es in
    h <- getitem "cycle_history" cycle_history ;;
    avg_energy <- lift (truediv total_energy (Int (len h))) ;;
    n <- getitem "nominal_capacity_kwh" nominal_capacity_kwh ;;
    q <- lift (truediv (Float avg_energy) (Float n)) ;;
    let soh_percent := (q * 100)%float in
    ret {| soh_percent := Float (py_round soh_percent 2);
           method := "cycle_history_estimate"; confidence := "medium" |}
  else
  c <- py_and (contains cells)
              (cs <- getitem "cells" cells ;; ret (truthy cs)) ;;
  if c then
    cs <- getitem "cells" cells ;;
    let vs := map voltage cs in
    cs <- getitem "cells" cells ;;
    avg_voltage <- lift (truediv (sum_floats vs) (Int (len cs))) ;;
    d <- lift (truediv (Float (avg_voltage - 3.2)) (Float (4.2 - 3.2))) ;;
    let soh_percent := (30 + d * 70)%float in
    ret {| soh_percent := Float (py_round soh_percent 2);
           method := "voltage_heuristic"; confidence := "low" |}
  else
    ret {| soh_percent := Int 0; method := "unknown"; confidence := "none" |}.

(** ** [count_cycles_from_soc] *)

Definition count_cycles_from_soc (soc_series : list soc_reading) : M cycles :=
  if negb (truthy soc_series) || (len soc_series <? 2) then
    ret {| equivalent_full_cycles := Int 0; deep_cycles := 0 |}
  else
    ds <- for_each
            (fun i =>
               a <- getindex soc_series i ;;
               b <- getindex soc_series (i - 1) ;;
               ret (Z.abs (soc a - soc b)))
            (range1 (len soc_series)) ;;
    let total_delta_soc := sum_ints ds in
    equivalent_full_cycles <- lift (truediv (Int total_delta_soc) (Int 100)) ;;
    deep_cycles <- for_loop (range1 (len soc_series))
            (fun i deep_cycles =>
               a <- getindex soc_series (i - 1) ;;
               if 90 <=? soc a then
                 b <- getindex soc_series i ;;
                 if soc b <=? 20 then ret (deep_cycles + 1) else ret deep_cycles
               else ret deep_cycles)
            0 ;;
    ret {| equivalent_full_cycles := Float (py_round equivalent_full_cycles 2);
           deep_cycles := deep_cycles |}.

(** ** [detect_anomalies] *)

Definition detect_anomalies : M (list anomaly) :=
  anomalies <- new_list ;;
  c <- py_and (contains cells)
              (cs <- getitem "cells" cells ;; ret (truthy cs)) ;;
  (if c then
     cs <- getitem "cells" cells ;;
     let voltages := map voltage cs in
     cs <- getitem "cells" cells ;;
     let temps := map temp_c cs in
     hi <- lift (py_max voltages) ;;
     lo <- lift (py_min voltages) ;;
     let voltage_spread := (hi - lo)%float in
     (if (0.10 <=? voltage_spread)%float then
        list_append anomalies
          {| type := "voltage_imbalance"; severity := "major";
             value := py_round voltage_spread 3 |}
      else if (0.05 <=? voltage_spread)%float then
        list_append anomalies
          {| type := "voltage_imbalance"; severity := "minor";
             value := py_round voltage_spread 3 |}
      else ret tt) ;;
     t <- lift (py_max temps) ;;
     if (60 <=? t)%float then
       t <- lift (py_max temps) ;;
       list_append anomalies
         {| type := "overheating"; severity := "critical"; value := t |}
     else
       t <- lift (py_max temps) ;;
       if (45 <=? t)%float then
         t <- lift (py_max temps) ;;
         list_append anomalies
           {| type := "overheating"; severity := "warning"; value := t |}
       else ret tt
   else ret tt) ;;
  c <- py_and (py_and (contains pack_voltage) (contains cell_count))
              (n <- getitem "cell_count" cell_count ;; ret (0 <? n)) ;;
  (if c then
     v <- getitem "pack_voltage" pack_voltage ;;
     n <- getitem "cell_count" cell_count ;;
     implied_cell_v <- lift (truediv (Float v) (Int n)) ;;
     if negb ((2.5 <=? implied_cell_v)%float && (implied_cell_v <=? 4.5)%float) then
       list_append anomalies
         {| type := "pack_voltage_mismatch"; severity := "warning";
            value := py_round implied_cell_v 2 |}
     else ret tt
   else ret tt) ;;
  list_items anomalies.

(** ** [generate_report] *)

Module Report.

Record report : Type := {
  vehicle_id : string;
  generated_at : string;
  soh : soh;
  cycles : cycles;
  anomalies : list anomaly;
  explanation : string
}.

End Report.

Section GenerateReport.

(** The clock and the two library functions that turn a time and a float
    into text are not part of the program. *)
Variable datetime : Type.
Variable isoformat : datetime -> string.
Variable str_float : float -> string.

(** What a replacement field of an f-string prints for a number. *)
Definition str_number (x : number) : string :=
  match x with
  | Int z => str_int z
  | Float f => str_float f
  end.

(** [utcnow] is what [datetime.utcnow()] returns during the call. *)
Definition generate_report (utcnow : datetime) : M Report.report :=
  soh <- compute_soh ;;
  series <- get_default soc_timeseries [] ;;
  cycles <- count_cycles_from_soc series ;;
  anomalies <- detect_anomalies ;;
  let explanation :=
    ("Battery SOH is " ++ str_number (soh_percent soh)
       ++ "% (calculated via " ++ method soh ++ "). ")%string in
  let explanation :=
    (explanation ++ "Total equivalent cycles: "
       ++ str_number (equivalent_full_cycles cycles) ++ ". ")%string in
  let explanation :=
    (explanation ++ "Detected " ++ str_int (len anomalies)
       ++ " anomalies.")%string in
  vid <- get_default vehicle_id "Unknown"%string ;;
  ret {| Report.vehicle_id := vid;
         Report.generated_at := isoformat utcnow;
         Report.soh := soh;
         Report.cycles := cycles;
         Report.anomalies := anomalies;
         Report.explanation := explanation |}.

End GenerateReport.

(** * Specification

    What the design document says, as functions and predicates of the log. *)

(** The store at the start of a call on [r], when no list object exists
    yet. *)
Definition fresh (r : raw) : store := {| input := r; heap := [] |}.

(** ** State of health *)

(** The mean cell voltage, as [compute_soh] computes it. *)
Definition mean_voltage (cs : list cell) : outcome float :=
  truediv (sum_floats (map voltage cs)) (Int (len cs)).

(** The percentage of the voltage heuristic for a mean cell voltage [v]. *)
Definition voltage_heuristic_percent (v : float) : float :=
  py_round (30 + (v - 3.2) / 1.0 * 70) 2.

(** The rated capacity is present and positive; every entry of the cycle
    history has its energy; a sequence is no longer than a Python list can
    be.  (That the numeric fields are numbers is in their types.) *)
Definition well_formed (r : raw) : Prop :=
  (exists n, nominal_capacity_kwh r = Some n /\ (0 <? n)%float = true)
  /\ (forall h, cycle_history r = Some h ->
        Forall (fun c => energy_kwh c <> None) h /\ len h <= PY_SSIZE_T_MAX)
  /\ (forall cs, cells r = Some cs -> len cs <= PY_SSIZE_T_MAX).

(** ** Cycle counting *)

(** The pairs of neighbours of a sequence, the earlier item first. *)
Fixpoint consecutive_pairs {A} (l : list A) : list (A * A) :=
  match l with
  | a :: (b :: _) as r => (a, b) :: consecutive_pairs r
  | _ => []
  end.

(** The sum of [|soc[i] - soc[i-1]|] over the consecutive pairs. *)
Definition total_soc_movement (series : list soc_reading) : Z :=
  fold_right Z.add 0
    (map (fun p => Z.abs (soc (snd p) - soc (fst p))) (consecutive_pairs series)).

(** A pair counts as a deep discharge when the earlier sample is at 90 or
    more and the later one at 20 or less. *)
Definition deep_discharge (p : soc_reading * soc_reading) : bool :=
  (90 <=? soc (fst p)) && (soc (snd p) <=? 20).

Definition deep_transitions (series : list soc_reading) : Z :=
  Z.of_nat (List.length (filter deep_discharge (consecutive_pairs series))).

(** A sample of the data model: a percentage. *)
Definition percent (s : soc_reading) : Prop := 0 <= soc s <= 100.

(** ** Anomalies *)

(** The quantities the three conditions are about. *)

Definition voltage_spread (cs : list cell) : outcome float :=
  outcome_bind (py_max (map voltage cs)) (fun hi =>
  outcome_bind (py_min (map voltage cs)) (fun lo => Ok (hi - lo)%float)).

Definition max_temperature (cs : list cell) : outcome float :=
  py_max (map temp_c cs).

(** Inside the inclusive range [2.5, 4.5]. *)
Definition plausible_cell_voltage (v : float) : bool :=
  (2.5 <=? v)%float && (v <=? 4.5)%float.

(** The three checks, each as a function of the log. *)

Definition voltage_imbalance_check (cs : list cell) : outcome (list anomaly) :=
  outcome_bind (py_max (map voltage cs)) (fun hi =>
  outcome_bind (py_min (map voltage cs)) (fun lo =>
  let spread := (hi - lo)%float in
  Ok (if (0.10 <=? spread)%float then
        [ {| type := "voltage_imbalance"; severity := "major";
             value := py_round spread 3 |} ]
      else if (0.05 <=? spread)%float then
        [ {| type := "voltage_imbalance"; severity := "minor";
             value := py_round spread 3 |} ]
      else []))).

Definition overheating_check (cs : list cell) : outcome (list anomaly) :=
  outcome_bind (py_max (map temp_c cs)) (fun max_temp =>
  Ok (if (60 <=? max_temp)%float then
        [ {| type := "overheating"; severity := "critical";
             value := max_temp |} ]
      else if (45 <=? max_temp)%float then
        [ {| type := "overheating"; severity := "warning";
             value := max_temp |} ]
      else [])).

Definition pack_voltage_check (r : raw) : outcome (list anomaly) :=
  match pack_voltage r, cell_count r with
  | Some v, Some n =>
      if 0 <? n then
        outcome_bind (truediv (Float v) (Int n)) (fun implied_cell_v =>
        Ok (if plausible_cell_voltage implied_cell_v then []
            else [ {| type := "pack_voltage_mismatch"; severity := "warning";
                      value := py_round implied_cell_v 2 |} ]))
      else Ok []
  | _, _ => Ok []
  end.

Definition cell_checks (r : raw) : outcome (list anomaly) :=
  match cells r with
  | Some (c :: cs) =>
      outcome_bind (voltage_imbalance_check (c :: cs)) (fun a =>
      outcome_bind (overheating_check (c :: cs)) (fun b => Ok (a ++ b)))
  | _ => Ok []
  end.

(** All three, the cell-level checks first. *)
Definition detected (r : raw) : outcome (list anomaly) :=
  outcome_bind (cell_checks r) (fun a =>
  outcome_bind (pack_voltage_check r) (fun b => Ok (a ++ b))).

(** ** Effects *)

(** A computation that leaves the caller's dictionary as it found it. *)
Definition preserves_input {A} (c : M A) : Prop :=
  forall st, input (snd (c st)) = input st.

(** A computation whose result depends on the log alone, and which leaves
    the store as it found it. *)
Definition reads {A} (c : M A) : Prop :=
  forall st, c st = (fst (c (fresh (input st))), st).

(** Two results of [generate_report] that differ in [generated_at] at
    most. *)
Definition same_but_time (a b : outcome Report.report) : Prop :=
  match a, b with
  | Ok x, Ok y =>
      Report.vehicle_id x = Report.vehicle_id y
      /\ Report.soh x = Report.soh y
      /\ Report.cycles x = Report.cycles y
      /\ Report.anomalies x = Report.anomalies y
      /\ Report.explanation x = Report.explanation y
  | Raise e, Raise e' => e = e'
  | _, _ => False
  end.

(** ** Rounding to the binary64 format *)

(** The zeros of the format. *)
Definition is_zero_sf (x : spec_float) : bool :=
  match x with
  | S754_zero _ => true
  | _ => false
  end.

(** ** The fixtures of [tests/test_battery_report.py] *)

Module Fixtures.

Definition mkcell (v t : float) : cell :=
  {| id := None; voltage := v; temp_c := t |}.

Definition mksoc (z : Z) : soc_reading := {| ts := None; soc := z |}.

Definition sample_log_measured : raw :=
  {| vehicle_id := Some "VIN-TEST-001"%string;
     nominal_capacity_kwh := Some 75.0%float;
     measured_capacity_kwh := Some 53.25%float;
     pack_voltage := Some 350.5%float;
     cell_count := Some 96;
     cells := Some [ {| id := Some 1; voltage := 3.65; temp_c := 28 |};
                     {| id := Some 96; voltage := 3.75; temp_c := 61 |} ];
     soc_timeseries :=
       Some [ {| ts := Some "2025-09-16T12:00:00Z"%string; soc := 95 |};
              {| ts := Some "2025-09-16T14:00:00Z"%string; soc := 18 |} ];
     cycle_history := None |}.

Definition sample_log_cycle : raw :=
  {| vehicle_id := Some "VIN-TEST-002"%string;
     nominal_capacity_kwh := Some 80.0%float;
     measured_capacity_kwh := None;
     pack_voltage := Some 360.0%float;
     cell_count := Some 96;
     cells := Some [ {| id := Some 1; voltage := 3.8; temp_c := 30 |} ];
     soc_timeseries := None;
     cycle_history := Some [ {| energy_kwh := Some 60.0%float |};
                             {| energy_kwh := Some 62.0%float |} ] |}.

Definition sample_log_voltage : raw :=
  {| vehicle_id := Some "VIN-TEST-003"%string;
     nominal_capacity_kwh := Some 60.0%float;
     measured_capacity_kwh := None;
     pack_voltage := Some 340.0%float;
     cell_count := Some 96;
     cells := Some [ {| id := Some 1; voltage := 3.7; temp_c := 25 |};
                     {| id := Some 2; voltage := 3.7; temp_c := 25 |} ];
     soc_timeseries := None;
     cycle_history := None |}.

(** The series of [test_cycle_counting]. *)
Definition soc_series : list soc_reading :=
  [mksoc 95; mksoc 18; mksoc 88; mksoc 25].

(** The log of [test_anomaly_detection]. *)
Definition anomaly_log : raw :=
  {| vehicle_id := None;
     nominal_capacity_kwh := None;
     measured_capacity_kwh := None;
     pack_voltage := Some 200%float;
     cell_count := Some 96;
     cells := Some [mkcell 3.60 30; mkcell 3.71 46; mkcell 3.65 62];
     soc_timeseries := None;
     cycle_history := None |}.

(** A log that holds nothing but cells of 5.2 V. *)
Definition high_voltage_log : raw :=
  {| vehicle_id := None;
     nominal_capacity_kwh := None;
     measured_capacity_kwh := None;
     pack_voltage := None;
     cell_count := None;
     cells := Some [mkcell 5.2 25; mkcell 5.2 25];
     soc_timeseries := None;
     cycle_history := None |}.

(** An empty dictionary. *)
Definition empty_log : raw :=
  {| vehicle_id := None;
     nominal_capacity_kwh := None;
     measured_capacity_kwh := None;
     pack_voltage := None;
     cell_count := None;
     cells := None;
     soc_timeseries := None;
     cycle_history := None |}.

End Fixtures.

(** * Further specification

    What the source shows beyond the design document's claims. *)

(** ** State of health, by branch *)

(** The energies of the cycle history, in order; the first entry without
    [energy_kwh] raises. *)
Fixpoint energies (h : list cycle) : outcome (list float) :=
  match h with
  | [] => Ok []
  | c :: r =>
      match energy_kwh c with
      | Some e => outcome_map (cons e) (energies r)
      | None => Raise (KeyError "energy_kwh")
      end
  end.

(** The mean energy per cycle, as [compute_soh] computes it. *)
Definition mean_energy (h : list cycle) : outcome float :=
  outcome_bind (energies h) (fun es => truediv (sum_floats es) (Int (len h))).

(** A capacity ratio [q] turned into a percentage and a record. *)
Definition estimate (q : outcome float) (m c : string) : outcome soh :=
  outcome_map
    (fun x => {| soh_percent := Float (py_round (x * 100) 2);
                 method := m; confidence := c |}) q.

(** [compute_soh] as a function of the log: the first branch whose guard
    holds decides. *)
Definition soh_of (r : raw) : outcome soh :=
  match measured_capacity_kwh r, nominal_capacity_kwh r with
  | Some m, Some n =>
      estimate (truediv (Float m) (Float n)) "measured_capacity" "high"
  | _, _ =>
      match cycle_history r with
      | Some (c :: h) =>
          outcome_bind (mean_energy (c :: h)) (fun avg =>
          match nominal_capacity_kwh r with
          | Some n =>
              estimate (truediv (Float avg) (Float n))
                       "cycle_history_estimate" "medium"
          | None => Raise (KeyError "nominal_capacity_kwh")
          end)
      | _ =>
          match cells r with
          | Some (c :: cs) =>
              outcome_map
                (fun v => {| soh_percent := Float (voltage_heuristic_percent v);
                             method := "voltage_heuristic";
                             confidence := "low" |})
                (mean_voltage (c :: cs))
          | _ =>
              Ok {| soh_percent := Int 0; method := "unknown";
                    confidence := "none" |}
          end
      end
  end.

(** The four kinds of result: a method, its confidence, and a percentage
    that is a float except for "unknown". *)
Definition soh_shape (s : soh) : Prop :=
  (method s = "measured_capacity"%string /\ confidence s = "high"%string
   /\ exists f, soh_percent s = Float f)
  \/ (method s = "cycle_history_estimate"%string
      /\ confidence s = "medium"%string
      /\ exists f, soh_percent s = Float f)
  \/ (method s = "voltage_heuristic"%string /\ confidence s = "low"%string
      /\ exists f, soh_percent s = Float f)
  \/ (method s = "unknown"%string /\ confidence s = "none"%string
      /\ soh_percent s = Int 0).

(** No sequence of the log is longer than a Python list can be. *)
Definition sequences_bounded (r : raw) : Prop :=
  (forall h, cycle_history r = Some h -> len h <= PY_SSIZE_T_MAX)
  /\ (forall cs, cells r = Some cs -> len cs <= PY_SSIZE_T_MAX).

(** Why [compute_soh] raised [e]: the rated capacity is zero, or it is
    missing, or an entry of the cycle history has no energy. *)
Definition soh_failure (r : raw) (e : exn) : Prop :=
  (e = ZeroDivisionError
   /\ exists n, nominal_capacity_kwh r = Some n /\ (n =? 0)%float = true)
  \/ (e = KeyError "nominal_capacity_kwh" /\ nominal_capacity_kwh r = None)
  \/ (e = KeyError "energy_kwh"
      /\ exists h c, cycle_history r = Some h /\ In c h
                     /\ energy_kwh c = None).

(** ** Anomalies *)

(** What the cell-level checks add for a spread and a greatest
    temperature: one threshold decides whether there is an entry, the
    other its severity. *)
Definition voltage_entries (spread : float) : list anomaly :=
  if (0.05 <=? spread)%float then
    [ {| type := "voltage_imbalance";
         severity := if (0.10 <=? spread)%float then "major" else "minor";
         value := py_round spread 3 |} ]
  else [].

Definition temperature_entries (max_temp : float) : list anomaly :=
  if (45 <=? max_temp)%float then
    [ {| type := "overheating";
         severity := if (60 <=? max_temp)%float then "critical" else "warning";
         value := max_temp |} ]
  else [].

(** The severities an entry of each type can have. *)
Definition anomaly_ok (a : anomaly) : Prop :=
  (type a = "voltage_imbalance"%string
   /\ (severity a = "major"%string \/ severity a = "minor"%string))
  \/ (type a = "overheating"%string
      /\ (severity a = "critical"%string \/ severity a = "warning"%string))
  \/ (type a = "pack_voltage_mismatch"%string
      /\ severity a = "warning"%string).

(** The types of a list of at most one entry per check, in the order of
    the checks. *)
Definition types_in_order (b1 b2 b3 : bool) : list string :=
  (if b1 then ["voltage_imbalance"%string] else [])
  ++ (if b2 then ["overheating"%string] else [])
  ++ (if b3 then ["pack_voltage_mismatch"%string] else []).

(** The pack-level check divides by a [cell_count] that has no float. *)
Definition cell_count_overflows (r : raw) : Prop :=
  exists v n, pack_voltage r = Some v /\ cell_count r = Some n
              /\ DBL_OVERFLOW <= n.

(** ** Cycle counting *)

(** A series that never rises, and one that never falls. *)
Definition never_rises (series : list soc_reading) : Prop :=
  Forall (fun p => soc (snd p) <= soc (fst p)) (consecutive_pairs series).

Definition never_falls (series : list soc_reading) : Prop :=
  Forall (fun p => soc (fst p) <= soc (snd p)) (consecutive_pairs series).

(** The first and the last sample. *)
Definition first_soc (series : list soc_reading) : Z :=
  soc (hd {| ts := None; soc := 0 |} series).

Definition last_soc (series : list soc_reading) : Z :=
  soc (last series {| ts := None; soc := 0 |}).

(** ** The report *)

(** The series that [generate_report] counts the cycles of. *)
Definition series_of (r : raw) : list soc_reading :=
  match soc_timeseries r with Some l => l | None => [] end.

Section ReportOf.

Variable str_float : float -> string.

(** The text of the report. *)
Definition explanation_of (s : soh) (c : cycles) (a : list anomaly) : string :=
  ("Battery SOH is " ++ str_number str_float (soh_percent s)
     ++ "% (calculated via " ++ method s ++ "). "
     ++ "Total equivalent cycles: "
     ++ str_number str_float (equivalent_full_cycles c) ++ ". "
     ++ "Detected " ++ str_int (len a) ++ " anomalies.")%string.

(** The report as a function of the log and of the text of the time: the
    three parts, computed one after the other, each on the log alone. *)
Definition report_of (generated_at : string) (r : raw)
  : outcome Report.report :=
  outcome_bind (soh_of r) (fun s =>
  outcome_bind
    (fst (count_cycles_from_soc (series_of r) (fresh r))) (fun c =>
  outcome_bind (detected r) (fun a =>
  Ok {| Report.vehicle_id :=
          match vehicle_id r with Some v => v | None => "Unknown"%string end;
        Report.generated_at := generated_at;
        Report.soh := s;
        Report.cycles := c;
        Report.anomalies := a;
        Report.explanation := explanation_of s c a |}))).

End ReportOf.

(** The state of charge moved so far that a hundredth of the total has no
    float. *)
Definition series_overflows (r : raw) : Prop :=
  2 <= len (series_of r)
  /\ 100 * DBL_OVERFLOW <= total_soc_movement (series_of r).

(** A log on which every part of the report is defined. *)
Definition report_ready (r : raw) : Prop :=
  well_formed r
  /\ (forall l, soc_timeseries r = Some l ->
        Forall percent l /\ len l <= PY_SSIZE_T_MAX)
  /\ ~ cell_count_overflows r.

(** ** More logs *)

Module Cases.

(** Cycle history and a measured capacity, but no rated capacity. *)
Definition history_without_nominal : raw :=
  {| vehicle_id := None;
     nominal_capacity_kwh := None;
     measured_capacity_kwh := Some 50.0%float;
     pack_voltage := None;
     cell_count := None;
     cells := Some [Fixtures.mkcell 3.7 25];
     soc_timeseries := None;
     cycle_history := Some [ {| energy_kwh := Some 60.0%float |};
                             {| energy_kwh := Some 62.0%float |} ] |}.

(** A rated capacity of zero. *)
Definition zero_nominal : raw :=
  {| vehicle_id := None;
     nominal_capacity_kwh := Some 0%float;
     measured_capacity_kwh := Some 53.25%float;
     pack_voltage := None;
     cell_count := None;
     cells := None;
     soc_timeseries := None;
     cycle_history := None |}.

(** A pack with nothing to report. *)
Definition healthy_log : raw :=
  {| vehicle_id := Some "VIN-OK"%string;
     nominal_capacity_kwh := Some 75.0%float;
     measured_capacity_kwh := Some 70.5%float;
     pack_voltage := Some 355.2%float;
     cell_count := Some 96;
     cells := Some [Fixtures.mkcell 3.70 25; Fixtures.mkcell 3.71 26];
     soc_timeseries := Some [Fixtures.mksoc 95; Fixtures.mksoc 60;
                             Fixtures.mksoc 18];
     cycle_history := None |}.

(** A cell count with no float. *)
Definition huge_cell_count : raw :=
  {| vehicle_id := None;
     nominal_capacity_kwh := None;
     measured_capacity_kwh := None;
     pack_voltage := Some 350.0%float;
     cell_count := Some (2 ^ 1024);
     cells := None;
     soc_timeseries := None;
     cycle_history := None |}.

(** A discharge sampled three times. *)
Definition discharge : list soc_reading :=
  [Fixtures.mksoc 95; Fixtures.mksoc 60; Fixtures.mksoc 18].

End Cases.

(** * Properties *)

(** ** The numeric model *)

(** A few values of the numeric model, as Python prints them. *)

Example py_round_half_even :
  (py_round 0.125 2, py_round 0.375 2, py_round 2.675 2)
  = (0.12, 0.38, 2.67)%float.
Proof. reflexivity. Qed.

Example py_round_values :
  (py_round 0.005 2, py_round 0.015 2, py_round 1234567890123.455 2,
   py_round 1e22 2, py_round infinity 2)
  = (0.01, 0.01, 1234567890123.46, 1e22, infinity)%float
  /\ (1 / py_round (-0.001) 2 = neg_infinity)%float.
Proof. split; reflexivity. Qed.

(** The span of the voltage heuristic is exactly one volt. *)
Example voltage_span : (4.2 - 3.2 = 1.0)%float.
Proof. reflexivity. Qed.

Example float_of_int_range :
  float_of_int (DBL_OVERFLOW - 1) = Ok 0x1.fffffffffffffp+1023%float /\
  float_of_int DBL_OVERFLOW = Raise OverflowError.
Proof. split; vm_compute; reflexivity. Qed.

Example truediv_values :
  truediv (Int 210) (Int 100) = Ok 2.1%float /\
  truediv (Float 200) (Int 96) = Ok 2.0833333333333335%float /\
  truediv (Float 1) (Float 0) = Raise ZeroDivisionError /\
  truediv (Int 1) (Int 0) = Raise ZeroDivisionError.
Proof. repeat split; vm_compute; reflexivity. Qed.

(** *** Comparisons of floats *)

Lemma SFcompare_antisym (x y : spec_float) :
  SFcompare y x = option_map CompOpp (SFcompare x y).
Proof.
  destruct x as [sx|sx| |sx mx ex], y as [sy|sy| |sy my ey];
    try destruct sx; try destruct sy; try reflexivity;
    cbn [SFcompare option_map];
    rewrite (Z.compare_antisym ex ey);
    destruct (ex ?= ey); cbn [CompOpp]; try reflexivity;
    rewrite (Pos.compare_cont_antisym mx my Eq); cbn [CompOpp];
    rewrite ?CompOpp_involutive; reflexivity.
Qed.

(** [x < y] rules out [y <= x]. *)
Lemma ltb_not_leb (x y : float) :
  (x <? y)%float = true -> (y <=? x)%float = false.
Proof.
  rewrite ltb_spec, leb_spec. unfold SFltb, SFleb.
  rewrite (SFcompare_antisym (Prim2SF x) (Prim2SF y)).
  destruct (SFcompare (Prim2SF x) (Prim2SF y)) as [[| |]|];
    cbn [option_map CompOpp]; congruence.
Qed.

(** A value below 2.5 or above 4.5 is outside the range. *)
Lemma outside_range (v : float) :
  (v <? 2.5)%float = true \/ (4.5 <? v)%float = true ->
  plausible_cell_voltage v = false.
Proof.
  unfold plausible_cell_voltage. intros [H|H].
  - now rewrite (ltb_not_leb _ _ H).
  - rewrite (ltb_not_leb _ _ H). apply andb_false_r.
Qed.

Lemma ssize_below_overflow : PY_SSIZE_T_MAX < DBL_OVERFLOW.
Proof. reflexivity. Qed.

(** *** Conversion of a length to a float *)

Module Rounding.

Lemma digits2_log2 (p : positive) :
  Z.pos (digits2_pos p) = Z.log2 (Z.pos p) + 1.
Proof.
  assert (S : forall q, digits2_pos q = Pos.size q).
  { induction q; cbn; congruence. }
  destruct p; cbn [digits2_pos Z.log2]; rewrite ?S; lia.
Qed.

Lemma Zdigits2_log2 (m : Z) : 0 < m -> Zdigits2 m = Z.log2 m + 1.
Proof. destruct m; try lia. intros _. apply digits2_log2. Qed.

Lemma shr_1_m (mrs : shr_record) :
  0 <= shr_m mrs -> shr_m (shr_1 mrs) = shr_m mrs / 2.
Proof.
  destruct mrs as [m r s]. cbn [shr_m]. intros Hm.
  rewrite <- Z.div2_div.
  destruct m as [|[p|p|]|]; try lia; reflexivity.
Qed.

Lemma iter_shr_1_m (n : positive) (mrs : shr_record) :
  0 <= shr_m mrs ->
  shr_m (iter_pos shr_1 n mrs) = shr_m mrs / 2 ^ Z.pos n.
Proof.
  revert mrs. induction n as [n IH|n IH|]; intros mrs Hm; cbn [iter_pos].
  - assert (H1 : 0 <= shr_m (shr_1 mrs)).
    { rewrite shr_1_m by exact Hm. apply Z.div_pos; lia. }
    assert (H2 : 0 <= shr_m (iter_pos shr_1 n (shr_1 mrs))).
    { rewrite IH by exact H1. apply Z.div_pos; [exact H1|].
      apply Z.pow_pos_nonneg; lia. }
    rewrite IH by exact H2. rewrite IH by exact H1. rewrite shr_1_m by exact Hm.
    rewrite !Z.div_div by (try apply Z.pow_pos_nonneg; lia).
    f_equal. replace (Z.pos n~1) with (1 + Z.pos n + Z.pos n) by lia.
    rewrite !Z.pow_add_r by lia. rewrite Z.pow_1_r. ring.
  - assert (H2 : 0 <= shr_m (iter_pos shr_1 n mrs)).
    { rewrite IH by exact Hm. apply Z.div_pos; [exact Hm|].
      apply Z.pow_pos_nonneg; lia. }
    rewrite IH by exact H2. rewrite IH by exact Hm.
    rewrite !Z.div_div by (try apply Z.pow_pos_nonneg; lia).
    f_equal. replace (Z.pos n~0) with (Z.pos n + Z.pos n) by lia.
    rewrite Z.pow_add_r by lia. ring.
  - rewrite shr_1_m by exact Hm. reflexivity.
Qed.

Lemma shr_record_of_loc_m (m : Z) (l : location) :
  shr_m (shr_record_of_loc m l) = m.
Proof. destruct l as [|[| |]]; reflexivity. Qed.

(** Rounding to the format keeps a positive mantissa positive, and keeps
    the magnitude [digits + exponent], as long as the number is not
    below the least subnormal. *)
Lemma shr_fexp_pos (m e : Z) (l : location) :
  0 < m ->
  SpecFloat.emin prec emax < Zdigits2 m + e ->
  let r := shr_fexp prec emax m e l in
  0 < shr_m (fst r) /\ Zdigits2 (shr_m (fst r)) + snd r = Zdigits2 m + e.
Proof.
  intros Hm He. unfold shr_fexp, shr.
  pose proof (Z.log2_nonneg m) as Hlog.
  rewrite (Zdigits2_log2 m Hm) in *.
  destruct (fexp prec emax (Z.log2 m + 1 + e) - e) as [|n|n] eqn:En;
    cbn [fst snd]; rewrite ?shr_record_of_loc_m;
    rewrite ?Zdigits2_log2 by exact Hm; try (split; [lia|reflexivity]).
  assert (Hn : Z.pos n <= Z.log2 m).
  { unfold fexp in En. change (SpecFloat.emin prec emax) with (-1074) in *.
    change prec with 53 in *. lia. }
  rewrite iter_shr_1_m by (rewrite shr_record_of_loc_m; lia).
  rewrite shr_record_of_loc_m.
  rewrite <- Z.shiftr_div_pow2 by lia.
  assert (Hpos : 0 < Z.shiftr m (Z.pos n)).
  { rewrite Z.shiftr_div_pow2 by lia. apply Z.div_str_pos.
    split; [apply Z.pow_pos_nonneg; lia|].
    apply Z.le_trans with (2 ^ Z.log2 m); [apply Z.pow_le_mono_r; lia|].
    apply Z.log2_spec. exact Hm. }
  split; [exact Hpos|].
  rewrite (Zdigits2_log2 _ Hpos), Z.log2_shiftr by exact Hm. lia.
Qed.

Lemma round_nearest_even_bounds (m : Z) (l : location) :
  m <= round_nearest_even m l <= m + 1.
Proof.
  unfold round_nearest_even.
  destruct l as [|[| |]]; try destruct (Z.even m); lia.
Qed.

Lemma binary_round_aux_nonzero (s : bool) (m e : Z) (l : location) :
  0 < m ->
  SpecFloat.emin prec emax < Zdigits2 m + e ->
  is_zero_sf (binary_round_aux prec emax s m e l) = false.
Proof.
  intros Hm He. unfold binary_round_aux.
  pose proof (shr_fexp_pos m e l Hm He) as H1. cbv zeta in H1.
  destruct (shr_fexp prec emax m e l) as [mrs' e']. cbn [fst snd] in H1.
  destruct H1 as [H1 H1e].
  pose proof (round_nearest_even_bounds (shr_m mrs')
                (loc_of_shr_record mrs')) as Hb.
  set (m2 := round_nearest_even (shr_m mrs') (loc_of_shr_record mrs')) in *.
  assert (Hm2 : 0 < m2) by lia.
  assert (He2 : SpecFloat.emin prec emax < Zdigits2 m2 + e').
  { rewrite (Zdigits2_log2 m2 Hm2). rewrite (Zdigits2_log2 _ H1) in H1e.
    pose proof (Z.log2_le_mono (shr_m mrs') m2). lia. }
  pose proof (shr_fexp_pos m2 e' loc_Exact Hm2 He2) as H2. cbv zeta in H2.
  destruct (shr_fexp prec emax m2 e' loc_Exact) as [mrs'' e'']. cbn [fst] in H2.
  destruct H2 as [H2 _].
  destruct (shr_m mrs''); try lia.
  destruct (e'' <=? emax - prec); reflexivity.
Qed.

Lemma shl_align_magnitude (mx : positive) (ex ex' : Z) :
  let r := shl_align mx ex ex' in
  Z.pos (digits2_pos (fst r)) + snd r = Z.pos (digits2_pos mx) + ex.
Proof.
  unfold shl_align.
  destruct (ex' - ex) as [|d|d] eqn:E; cbn [fst snd]; try reflexivity.
  rewrite !digits2_log2.
  rewrite (Pos.iter_swap_gen _ _ Z.pos xO (Z.mul 2)) by reflexivity.
  change (Pos.iter (Z.mul 2) (Z.pos mx) d) with (Z.shiftl (Z.pos mx) (Z.pos d)).
  rewrite Z.log2_shiftl by lia. lia.
Qed.

(** A positive integer does not round to zero. *)
Lemma binary_round_nonzero (s : bool) (p : positive) :
  is_zero_sf (binary_round prec emax s p 0) = false.
Proof.
  unfold binary_round.
  pose proof (shl_align_magnitude p 0
                (fexp prec emax (Z.pos (digits2_pos p) + 0))) as H.
  cbv zeta in H.
  destruct (shl_align p 0 _) as [mz ez]. cbn [fst snd] in H.
  apply binary_round_aux_nonzero; [lia|].
  cbn [Zdigits2]. rewrite H.
  change (SpecFloat.emin prec emax) with (-1074). lia.
Qed.

(** [float(z)] for a positive [z] that fits 63 bits is not [0.0]. *)
Lemma float_of_positive_nonzero (z : Z) :
  0 < z < 2 ^ 63 ->
  (SF2Prim (binary_normalize prec emax z 0 false) =? 0)%float = false.
Proof.
  intros Hz.
  assert (E : binary_normalize prec emax z 0 false
              = Prim2SF (of_uint63 (Uint63Axioms.of_Z z))).
  { rewrite of_uint63_spec, Uint63.of_Z_spec.
    rewrite Z.mod_small; [reflexivity|].
    change Uint63Axioms.wB with (2 ^ 63). lia. }
  rewrite eqb_spec, E, SF2Prim_Prim2SF, <- E.
  change (Prim2SF 0) with (S754_zero false).
  destruct z as [|p|p]; try lia. cbn [binary_normalize].
  pose proof (binary_round_nonzero false p) as H.
  destruct (binary_round prec emax false p 0) as [s|s| |s m e];
    try destruct s; try discriminate; reflexivity.
Qed.

End Rounding.

(** A positive float is not zero. *)
Lemma positive_nonzero (n : float) :
  (0 <? n)%float = true -> (n =? 0)%float = false.
Proof.
  rewrite ltb_spec, eqb_spec.
  change (Prim2SF 0) with (S754_zero false).
  destruct (Prim2SF n) as [s|s| |s m e]; try destruct s; cbn; congruence.
Qed.

(** [x / len(l)] for a non-empty list [l] is defined. *)
Lemma truediv_by_len (x : float) (z : Z) :
  0 < z <= PY_SSIZE_T_MAX ->
  exists q, truediv (Float x) (Int z) = Ok q.
Proof.
  intros Hz. cbn [truediv to_float outcome_bind]. unfold float_of_int.
  replace (DBL_OVERFLOW <=? Z.abs z) with false.
  2:{ symmetry. apply Z.leb_gt. pose proof ssize_below_overflow. lia. }
  cbn [outcome_bind]. unfold float_truediv.
  rewrite Rounding.float_of_positive_nonzero.
  - eexists. reflexivity.
  - unfold PY_SSIZE_T_MAX in Hz. lia.
Qed.

(** ** State of health *)

(** Unfolds the operations of the monad that read the dictionary. *)
Ltac run_reads :=
  unfold py_and, contains, getitem, get_default, bind, lift, ret, raise;
  cbn [input heap vehicle_id nominal_capacity_kwh measured_capacity_kwh
       pack_voltage cell_count cells soc_timeseries cycle_history truthy].

(** Names the fields of the dictionary of a store and substitutes what the
    hypotheses say about them. *)
Ltac open_store st :=
  let r := fresh "r" in
  let h := fresh "h" in
  destruct st as [r h]; destruct r;
  cbn [input heap vehicle_id nominal_capacity_kwh measured_capacity_kwh
       pack_voltage cell_count cells soc_timeseries cycle_history] in *;
  subst.

(** Two floats that [==] tells apart are different values. *)
Lemma Ok_Float_neq (x y : float) :
  (x =? y)%float <> (y =? y)%float -> Ok (Float x) <> Ok (Float y).
Proof. intros H E. apply H. injection E as ->. reflexivity. Qed.

(** C1: when both capacities are in the log (the rated one not zero, the
    data model has it positive), the measured-capacity method is used,
    with confidence "high" and the percentage
    [round(measured / nominal * 100, 2)], whatever [cells] and
    [cycle_history] hold. *)
Theorem compute_soh_measured_capacity (st : store) (m n : float) :
  measured_capacity_kwh (input st) = Some m ->
  nominal_capacity_kwh (input st) = Some n ->
  (n =? 0)%float = false ->
  compute_soh st =
    (Ok {| soh_percent := Float (py_round (m / n * 100) 2);
           method := "measured_capacity";
           confidence := "high" |}, st).
Proof.
  intros Hm Hn Hz. open_store st.
  unfold compute_soh. run_reads.
  cbn [truediv to_float outcome_bind].
  unfold float_truediv. rewrite Hz. reflexivity.
Qed.

Lemma compute_soh_measured_capacity_witness :
  compute_soh (fresh Fixtures.sample_log_measured) =
    (Ok {| soh_percent := Float 71.0;
           method := "measured_capacity";
           confidence := "high" |},
     fresh Fixtures.sample_log_measured).
Proof.
  exact (compute_soh_measured_capacity
           (fresh Fixtures.sample_log_measured) 53.25 75.0
           eq_refl eq_refl eq_refl).
Defined.

(** What the data model rules out: a rated capacity of zero makes the
    first branch raise, and a log with cycle history but no rated capacity
    makes the second one raise. *)
Example compute_soh_zero_nominal :
  fst (compute_soh
         {| input :=
              {| vehicle_id := None;
                 nominal_capacity_kwh := Some 0%float;
                 measured_capacity_kwh := Some 53.25%float;
                 pack_voltage := None;
                 cell_count := None;
                 cells := None;
                 soc_timeseries := None;
                 cycle_history := None |};
            heap := [] |})
  = Raise ZeroDivisionError.
Proof. reflexivity. Qed.

Example compute_soh_history_without_nominal :
  fst (compute_soh
         {| input :=
              {| vehicle_id := None;
                 nominal_capacity_kwh := None;
                 measured_capacity_kwh := None;
                 pack_voltage := None;
                 cell_count := None;
                 cells := None;
                 soc_timeseries := None;
                 cycle_history := Some [ {| energy_kwh := Some 60.0%float |} ] |};
            heap := [] |})
  = Raise (KeyError "nominal_capacity_kwh").
Proof. reflexivity. Qed.

(** The third branch of [compute_soh], for any mean cell voltage. *)
Lemma compute_soh_cells_only (st : store) (cs : list cell) (v : float) :
  measured_capacity_kwh (input st) = None ->
  cycle_history (input st) = None \/ cycle_history (input st) = Some [] ->
  cells (input st) = Some cs ->
  cs <> [] ->
  mean_voltage cs = Ok v ->
  compute_soh st =
    (Ok {| soh_percent := Float (voltage_heuristic_percent v);
           method := "voltage_heuristic";
           confidence := "low" |}, st).
Proof.
  intros Hm Hh Hc Hne Hv.
  destruct cs as [|c0 cs]; [congruence|].
  unfold mean_voltage in Hv.
  destruct Hh as [Hh|Hh]; open_store st;
    unfold compute_soh; run_reads; rewrite Hv; reflexivity.
Qed.

(** C6: a log without a measured capacity and without cycle history, with
    cells of mean voltage [v], gets
    [round(30 + (v - 3.2) / 1.0 * 70, 2)] with confidence "low"; a mean
    of 3.7 V gives 65.0. *)
Theorem compute_soh_voltage_heuristic (st : store) (cs : list cell) (v : float) :
  measured_capacity_kwh (input st) = None ->
  cycle_history (input st) = None \/ cycle_history (input st) = Some [] ->
  cells (input st) = Some cs ->
  cs <> [] ->
  mean_voltage cs = Ok v ->
  compute_soh st =
    (Ok {| soh_percent := Float (py_round (30 + (v - 3.2) / 1.0 * 70) 2);
           method := "voltage_heuristic";
           confidence := "low" |}, st)
  /\ (v = 3.7%float ->
      outcome_map soh_percent (fst (compute_soh st)) = Ok (Float 65.0)).
Proof.
  intros Hm Hh Hc Hne Hv.
  pose proof (compute_soh_cells_only st cs v Hm Hh Hc Hne Hv) as E.
  split; [exact E|].
  intros ->. rewrite E. reflexivity.
Qed.

Lemma compute_soh_voltage_heuristic_witness :
  compute_soh (fresh Fixtures.sample_log_voltage) =
    (Ok {| soh_percent := Float 65.0;
           method := "voltage_heuristic";
           confidence := "low" |},
     fresh Fixtures.sample_log_voltage)
  /\ (3.7%float = 3.7%float ->
      outcome_map soh_percent
        (fst (compute_soh (fresh Fixtures.sample_log_voltage)))
      = Ok (Float 65.0)).
Proof.
  refine (compute_soh_voltage_heuristic
            (fresh Fixtures.sample_log_voltage) _ 3.7
            eq_refl (or_introl eq_refl) eq_refl _ eq_refl).
  discriminate.
Defined.

(** C3, as the design document has it, is wrong about the number: cells
    with a mean voltage of 5.2 V get 170.0, not 230.0. *)
Lemma compute_soh_mean_5_2_is_not_230 :
  let st := fresh Fixtures.high_voltage_log in
  measured_capacity_kwh (input st) = None /\
  cycle_history (input st) = None /\
  (exists cs, cells (input st) = Some cs /\ cs <> [] /\
              mean_voltage cs = Ok 5.2%float) /\
  outcome_map soh_percent (fst (compute_soh st)) = Ok (Float 170.0) /\
  outcome_map soh_percent (fst (compute_soh st)) <> Ok (Float 230.0).
Proof.
  cbv zeta.
  split; [reflexivity|]. split; [reflexivity|]. split.
  { eexists. split; [reflexivity|]. split; [discriminate|reflexivity]. }
  split; [reflexivity|].
  change (Ok (Float 170.0) <> Ok (Float 230.0)).
  apply Ok_Float_neq. vm_compute. discriminate.
Qed.

(** C3 (amended): a log without a measured capacity and without cycle
    history, with cells of mean voltage [v], gets the method
    "voltage_heuristic" and the percentage
    [round(30 + (v - 3.2) / (4.2 - 3.2) * 70, 2)], linear in [v] and not
    clamped to the range 0..100: a mean of 5.2 V gives 170.0. *)
Theorem compute_soh_voltage_unclamped (st : store) (cs : list cell) (v : float) :
  measured_capacity_kwh (input st) = None ->
  cycle_history (input st) = None \/ cycle_history (input st) = Some [] ->
  cells (input st) = Some cs ->
  cs <> [] ->
  mean_voltage cs = Ok v ->
  outcome_map method (fst (compute_soh st)) = Ok "voltage_heuristic"%string
  /\ outcome_map soh_percent (fst (compute_soh st))
     = Ok (Float (py_round (30 + (v - 3.2) / (4.2 - 3.2) * 70) 2))
  /\ (v = 5.2%float ->
      outcome_map soh_percent (fst (compute_soh st)) = Ok (Float 170.0)
      /\ (100 <? 170.0)%float = true).
Proof.
  intros Hm Hh Hc Hne Hv.
  rewrite (compute_soh_cells_only st cs v Hm Hh Hc Hne Hv).
  split; [reflexivity|]. split; [reflexivity|].
  intros ->. split; reflexivity.
Qed.

Lemma compute_soh_voltage_unclamped_witness :
  let st := fresh Fixtures.high_voltage_log in
  outcome_map method (fst (compute_soh st)) = Ok "voltage_heuristic"%string
  /\ outcome_map soh_percent (fst (compute_soh st))
     = Ok (Float (py_round (30 + (5.2 - 3.2) / (4.2 - 3.2) * 70) 2))
  /\ (5.2%float = 5.2%float ->
      outcome_map soh_percent (fst (compute_soh st)) = Ok (Float 170.0)
      /\ (100 <? 170.0)%float = true).
Proof.
  refine (compute_soh_voltage_unclamped
            (fresh Fixtures.high_voltage_log) _ 5.2
            eq_refl (or_introl eq_refl) eq_refl _ eq_refl).
  discriminate.
Defined.

(** C10: with no measured capacity, no cycle history and no cells, the
    result is the "unknown" record; [nominal_capacity_kwh] is not read, so
    the call succeeds whether the log has it or not. *)
Theorem compute_soh_unknown (st : store) :
  measured_capacity_kwh (input st) = None ->
  cycle_history (input st) = None \/ cycle_history (input st) = Some [] ->
  cells (input st) = None \/ cells (input st) = Some [] ->
  compute_soh st =
    (Ok {| soh_percent := Int 0; method := "unknown"; confidence := "none" |},
     st).
Proof.
  intros Hm [Hh|Hh] [Hc|Hc]; open_store st;
    unfold compute_soh; run_reads; reflexivity.
Qed.

Lemma compute_soh_unknown_witness :
  nominal_capacity_kwh Fixtures.empty_log = None /\
  compute_soh (fresh Fixtures.empty_log) =
    (Ok {| soh_percent := Int 0; method := "unknown"; confidence := "none" |},
     fresh Fixtures.empty_log).
Proof.
  split; [reflexivity|].
  exact (compute_soh_unknown (fresh Fixtures.empty_log)
           eq_refl (or_introl eq_refl) (or_introl eq_refl)).
Defined.

(** *** Well-formed logs *)

Lemma for_each_energy (h : list cycle) (es : list float) (st : store) :
  map energy_kwh h = map Some es ->
  for_each (fun c => item "energy_kwh" (energy_kwh c)) h st = (Ok es, st).
Proof.
  revert es. induction h as [|c h IH]; intros [|e es] E; try discriminate;
    [reflexivity|].
  cbn [map] in E. injection E as Ec Eh.
  cbn [for_each]. unfold bind at 1. rewrite Ec. cbn [item]. unfold ret at 1.
  unfold bind at 1. rewrite (IH es Eh). reflexivity.
Qed.

Lemma energies_present (h : list cycle) :
  Forall (fun c => energy_kwh c <> None) h ->
  exists es, map energy_kwh h = map Some es.
Proof.
  induction 1 as [|c h Hc _ [es IH]]; [exists []; reflexivity|].
  destruct (energy_kwh c) as [e|] eqn:E; [|congruence].
  exists (e :: es). cbn [map]. now rewrite E, IH.
Qed.

(** The second branch of [compute_soh]. *)
Lemma compute_soh_history (st : store) (h : list cycle) (es : list float)
      (avg n : float) :
  (measured_capacity_kwh (input st) = None
   \/ nominal_capacity_kwh (input st) = None) ->
  cycle_history (input st) = Some h ->
  h <> [] ->
  map energy_kwh h = map Some es ->
  truediv (sum_floats es) (Int (len h)) = Ok avg ->
  nominal_capacity_kwh (input st) = Some n ->
  (n =? 0)%float = false ->
  compute_soh st =
    (Ok {| soh_percent := Float (py_round (avg / n * 100) 2);
           method := "cycle_history_estimate";
           confidence := "medium" |}, st).
Proof.
  intros Hm Hh Hne Hes Havg Hn Hz.
  destruct h as [|c0 h]; [congruence|].
  destruct Hm as [Hm|Hm]; [|congruence].
  pose proof (fun st' => for_each_energy (c0 :: h) es st' Hes) as Hfor.
  open_store st. unfold compute_soh. run_reads.
  rewrite Hfor. run_reads. rewrite Havg.
  cbn [truediv to_float outcome_bind]. unfold float_truediv. rewrite Hz.
  reflexivity.
Qed.

Example compute_soh_sample_log_cycle :
  fst (compute_soh (fresh Fixtures.sample_log_cycle)) =
    Ok {| soh_percent := Float 76.25;
          method := "cycle_history_estimate";
          confidence := "medium" |}.
Proof. reflexivity. Qed.

(** C7: on a well-formed log [compute_soh] returns a result: no key is
    missing where one is read, and no division is by zero or out of
    range. *)
Theorem compute_soh_never_raises (st : store) :
  well_formed (input st) ->
  exists s, compute_soh st = (Ok s, st).
Proof.
  intros [[n [Hn Hpos]] [Hhist Hcells]].
  pose proof (positive_nonzero n Hpos) as Hz.
  destruct (measured_capacity_kwh (input st)) as [m|] eqn:Hm.
  { eexists. open_store st. unfold compute_soh. run_reads.
    cbn [truediv to_float outcome_bind]. unfold float_truediv. rewrite Hz.
    reflexivity. }
  destruct (cycle_history (input st)) as [[|c h]|] eqn:Hh.
  2:{ destruct (Hhist _ eq_refl) as [Hall Hlen].
      destruct (energies_present _ Hall) as [es Hes].
      assert (Hes' : es <> []) by (destruct es; discriminate).
      destruct es as [|e es]; [congruence|].
      destruct (truediv_by_len (fold_left PrimFloat.add (e :: es) 0%float)
                               (len (c :: h))) as [avg Havg].
      { split; [unfold len; cbn [List.length]; lia|exact Hlen]. }
      eexists.
      apply (compute_soh_history st (c :: h) (e :: es) avg n);
        auto; discriminate. }
  all: destruct (cells (input st)) as [[|c cs]|] eqn:Hc.
  all: try (eexists; open_store st; unfold compute_soh; run_reads;
            reflexivity).
  all: destruct (truediv_by_len
                   (fold_left PrimFloat.add (map voltage (c :: cs)) 0%float)
                   (len (c :: cs))) as [v Hv];
    [split; [unfold len; cbn [List.length]; lia|exact (Hcells _ eq_refl)]|].
  all: eexists; apply (compute_soh_cells_only st (c :: cs) v);
    auto; discriminate.
Qed.

Lemma compute_soh_never_raises_witness :
  exists s,
    compute_soh (fresh Fixtures.sample_log_cycle)
    = (Ok s, fresh Fixtures.sample_log_cycle).
Proof.
  apply (compute_soh_never_raises (fresh Fixtures.sample_log_cycle)).
  split; [|split].
  - exists 80.0%float. split; reflexivity.
  - intros h E. injection E as <-. split.
    + repeat constructor; discriminate.
    + discriminate.
  - intros cs E. injection E as <-. discriminate.
Defined.

(** ** Cycle counting *)

Section PureLoops.

Context {A B : Type}.

(** A generator whose items are computed without touching the store
    yields the items of a [map]. *)
Lemma for_each_pure (f : A -> M B) (g : A -> B) (l : list A) (st : store) :
  (forall a, In a l -> f a st = (Ok (g a), st)) ->
  for_each f l st = (Ok (map g l), st).
Proof.
  induction l as [|a l IH]; intros Hf; [reflexivity|].
  cbn [for_each map]. unfold bind at 1.
  rewrite (Hf a (or_introl eq_refl)).
  unfold bind at 1. rewrite IH by (intros; apply Hf; now right).
  reflexivity.
Qed.

(** A loop whose body is such a computation is a left fold. *)
Lemma for_loop_pure (body : A -> B -> M B) (g : B -> A -> B)
      (l : list A) (s : B) (st : store) :
  (forall a s, In a l -> body a s st = (Ok (g s a), st)) ->
  for_loop l body s st = (Ok (fold_left g l s), st).
Proof.
  revert s. induction l as [|a l IH]; intros s Hf; [reflexivity|].
  cbn [for_loop fold_left]. unfold bind.
  rewrite (Hf a s (or_introl eq_refl)).
  apply IH. intros; apply Hf; now right.
Qed.

End PureLoops.

(** The pairs [(l[i-1], l[i])] for [i] in [range(1, len(l))] are the
    consecutive pairs. *)
Lemma index_pairs {A} (d : A) (l : list A) :
  map (fun i => (nth (i - 1) l d, nth i l d)) (seq 1 (List.length l - 1))
  = consecutive_pairs l.
Proof.
  induction l as [|a l IH]; [reflexivity|].
  destruct l as [|b r]; [reflexivity|].
  change (List.length (a :: b :: r) - 1)%nat with (S (List.length r)).
  change (consecutive_pairs (a :: b :: r))
    with ((a, b) :: consecutive_pairs (b :: r)).
  cbn [seq map nth Nat.sub]. f_equal.
  rewrite <- IH.
  change (List.length (b :: r) - 1)%nat with (List.length r - 0)%nat.
  rewrite Nat.sub_0_r, <- seq_shift, map_map.
  apply map_ext_in. intros i Hi. apply in_seq in Hi.
  destruct i as [|i]; [lia|]. cbn [Nat.sub nth]. rewrite Nat.sub_0_r.
  reflexivity.
Qed.

Lemma range1_len {A} (l : list A) :
  range1 (len l) = seq 1 (List.length l - 1).
Proof. unfold range1, len. now rewrite Nat2Z.id. Qed.

(** Inside [range(1, len(l))] neither [l[i]] nor [l[i-1]] raises. *)
Lemma getindex_in_range {A} (d : A) (l : list A) (i : nat) (st : store) :
  In i (seq 1 (List.length l - 1)) ->
  getindex l i st = (Ok (nth i l d), st) /\
  getindex l (i - 1) st = (Ok (nth (i - 1) l d), st).
Proof.
  intros Hi. apply in_seq in Hi. unfold getindex.
  rewrite (nth_error_nth' l d) by lia.
  rewrite (nth_error_nth' l d) by lia.
  split; reflexivity.
Qed.

Lemma sum_ints_fold_right (l : list Z) : sum_ints l = fold_right Z.add 0 l.
Proof.
  unfold sum_ints.
  assert (G : forall a, fold_left Z.add l a = a + fold_right Z.add 0 l).
  { induction l as [|x l IH]; intros a; cbn [fold_left fold_right]; [lia|].
    rewrite IH. lia. }
  rewrite G. lia.
Qed.

Lemma fold_left_over_map {X Y S} (f : S -> Y -> S) (g : X -> Y)
      (l : list X) (s : S) :
  fold_left f (map g l) s = fold_left (fun acc x => f acc (g x)) l s.
Proof.
  revert s. induction l as [|x l IH]; intros s; [reflexivity|].
  cbn [map fold_left]. apply IH.
Qed.

Lemma count_fold (P : soc_reading * soc_reading -> bool)
      (l : list (soc_reading * soc_reading)) (n : Z) :
  fold_left (fun acc p => if P p then acc + 1 else acc) l n
  = n + Z.of_nat (List.length (filter P l)).
Proof.
  revert n. induction l as [|p l IH]; intros n; cbn [fold_left filter].
  - cbn. lia.
  - rewrite IH. destruct (P p); cbn [List.length]; lia.
Qed.

(** The two loops of [count_cycles_from_soc], on a series of at least two
    samples, up to the division. *)
Lemma count_cycles_loops (series : list soc_reading) (st : store) :
  (2 <= len series) ->
  count_cycles_from_soc series st =
    (outcome_map
       (fun q => {| equivalent_full_cycles := Float (py_round q 2);
                    deep_cycles := deep_transitions series |})
       (truediv (Int (total_soc_movement series)) (Int 100)), st).
Proof.
  intros Hlen.
  pose (d := {| ts := None; soc := 0 |}).
  unfold count_cycles_from_soc.
  replace (negb (truthy series) || (len series <? 2)) with false.
  2:{ symmetry. apply orb_false_iff. split.
      - destruct series; [cbn in Hlen; lia|reflexivity].
      - apply Z.ltb_ge. exact Hlen. }
  rewrite range1_len.
  unfold bind at 1.
  rewrite (for_each_pure _
             (fun i => Z.abs (soc (nth i series d) - soc (nth (i - 1) series d)))).
  2:{ intros i Hi. destruct (getindex_in_range d series i st Hi) as [E1 E2].
      unfold bind. rewrite E1, E2. reflexivity. }
  replace (sum_ints _) with (total_soc_movement series).
  2:{ rewrite sum_ints_fold_right. unfold total_soc_movement.
      rewrite <- (index_pairs d), map_map. reflexivity. }
  unfold bind, lift.
  destruct (truediv (Int (total_soc_movement series)) (Int 100)) as [q|e];
    [|reflexivity].
  rewrite (for_loop_pure _
             (fun acc i =>
                if deep_discharge (nth (i - 1) series d, nth i series d)
                then acc + 1 else acc)).
  2:{ intros i acc Hi. destruct (getindex_in_range d series i st Hi) as [E1 E2].
      unfold bind. rewrite E2. unfold deep_discharge. cbn [fst snd].
      destruct (90 <=? soc (nth (i - 1) series d)); [|reflexivity].
      rewrite E1. cbn [andb].
      destruct (soc (nth i series d) <=? 20); reflexivity. }
  unfold ret, outcome_map, outcome_bind. do 3 f_equal.
  unfold deep_transitions. rewrite <- (index_pairs d).
  rewrite <- (Z.add_0_l (Z.of_nat _)), <- count_fold, fold_left_over_map.
  reflexivity.
Qed.

(** On percentages a pair moves the state of charge by 100 points at most. *)
Lemma total_soc_movement_bound (series : list soc_reading) :
  Forall percent series ->
  0 <= total_soc_movement series <= 100 * len series.
Proof.
  unfold total_soc_movement, len.
  induction series as [|a l IH]; intros HP; [cbn; lia|].
  destruct l as [|b r]; [cbn; lia|].
  change (consecutive_pairs (a :: b :: r))
    with ((a, b) :: consecutive_pairs (b :: r)).
  cbn [map fold_right fst snd].
  inversion HP as [|? ? Ha HP']; subst.
  specialize (IH HP'). inversion HP' as [|? ? Hb _]; subst.
  unfold percent in Ha, Hb.
  change (List.length (a :: b :: r)) with (S (List.length (b :: r))).
  rewrite Nat2Z.inj_succ. lia.
Qed.

(** The quotient of a total below the range of a float is a float. *)
Lemma truediv_by_100 (total : Z) :
  0 <= total < 100 * DBL_OVERFLOW ->
  truediv (Int total) (Int 100)
  = Ok (SF2Prim (SFdiv prec emax (sf_of_Z total) (sf_of_Z 100))).
Proof.
  intros H. cbn [truediv]. unfold int_truediv.
  change (100 =? 0) with false. cbv iota.
  change (Z.abs 100) with 100.
  replace (100 * DBL_OVERFLOW <=? Z.abs total) with false; [reflexivity|].
  symmetry. apply Z.leb_gt. lia.
Qed.

(** C4: a series of fewer than two samples gives zero and zero; a longer
    one gives [round(total / 100, 2)], where [total] is the sum of
    [|soc[i] - soc[i-1]|] over the consecutive pairs, and the number of
    consecutive pairs that go from 90 or more to 20 or less.  The second
    part says so for every series, with the division as Python does it;
    the third adds that on percentages the division is in range, so the
    call returns. *)
Theorem count_cycles_from_soc_spec (series : list soc_reading) (st : store) :
  (len series < 2 ->
   count_cycles_from_soc series st =
     (Ok {| equivalent_full_cycles := Int 0; deep_cycles := 0 |}, st))
  /\ (2 <= len series ->
      count_cycles_from_soc series st =
        (outcome_map
           (fun q => {| equivalent_full_cycles := Float (py_round q 2);
                        deep_cycles := deep_transitions series |})
           (truediv (Int (total_soc_movement series)) (Int 100)), st))
  /\ (2 <= len series -> Forall percent series ->
      len series <= PY_SSIZE_T_MAX ->
      exists q,
        truediv (Int (total_soc_movement series)) (Int 100) = Ok q
        /\ count_cycles_from_soc series st =
             (Ok {| equivalent_full_cycles := Float (py_round q 2);
                    deep_cycles := deep_transitions series |}, st)).
Proof.
  split; [|split].
  - intros Hlen. unfold count_cycles_from_soc.
    replace (negb (truthy series) || (len series <? 2)) with true; [reflexivity|].
    symmetry. apply orb_true_iff. right. apply Z.ltb_lt. exact Hlen.
  - apply count_cycles_loops.
  - intros Hlen HP Hmax. eexists. split.
    + apply truediv_by_100.
      pose proof (total_soc_movement_bound series HP).
      pose proof ssize_below_overflow. lia.
    + rewrite count_cycles_loops by exact Hlen.
      rewrite truediv_by_100; [reflexivity|].
      pose proof (total_soc_movement_bound series HP).
      pose proof ssize_below_overflow. lia.
Qed.

Lemma count_cycles_from_soc_spec_witness :
  count_cycles_from_soc [] (fresh Fixtures.empty_log) =
    (Ok {| equivalent_full_cycles := Int 0; deep_cycles := 0 |},
     fresh Fixtures.empty_log)
  /\ count_cycles_from_soc
       [Fixtures.mksoc 95; Fixtures.mksoc 18]
       (fresh Fixtures.empty_log) =
     (Ok {| equivalent_full_cycles := Float 0.77; deep_cycles := 1 |},
      fresh Fixtures.empty_log).
Proof.
  split.
  - apply (proj1 (count_cycles_from_soc_spec [] _)). reflexivity.
  - apply (proj1 (proj2 (count_cycles_from_soc_spec
                           [Fixtures.mksoc 95; Fixtures.mksoc 18] _))).
    discriminate.
Defined.

(** C2: on the series 95, 18, 88, 25 the code gives 2.1 equivalent full
    cycles (the moves are 77, 70 and 63 points) and one deep cycle; the
    test of the repository expects 1.4. *)
Theorem count_cycles_test_series :
  forall st : store,
    count_cycles_from_soc Fixtures.soc_series st =
      (Ok {| equivalent_full_cycles := Float 2.1; deep_cycles := 1 |}, st)
    /\ Ok (Float 2.1) <> Ok (Float 1.4).
Proof.
  intros st. split.
  - rewrite count_cycles_loops by discriminate. reflexivity.
  - apply Ok_Float_neq. vm_compute. discriminate.
Qed.

(** ** Anomalies *)

(** The list object a call has just created is the last one of the heap. *)
Lemma nth_new {A} (h : list (list A)) (l : list A) :
  nth (List.length h) (h ++ [l]) [] = l.
Proof. apply nth_middle. Qed.

Lemma update_new {A} (h : list (list A)) (l l' : list A) :
  update (h ++ [l]) (List.length h) l' = h ++ [l'].
Proof. induction h as [|x h IH]; [reflexivity|]. cbn. now rewrite IH. Qed.

(** Runs the operations of the monad as far as the hypotheses about the
    log allow. *)
Ltac run_heap :=
  unfold new_list, list_append, list_items, py_and, contains, getitem,
    get_default, bind, lift, ret, raise;
  repeat (progress
            (cbn [input heap truthy app fst snd outcome_bind py_max py_min map];
             repeat match goal with
                    | H : _ = Some _ |- _ => rewrite !H
                    | H : _ = None |- _ => rewrite !H
                    | H : _ = Ok _ |- _ => rewrite !H
                    | H : _ = Raise _ |- _ => rewrite !H
                    | H : _ = true |- _ => rewrite !H
                    | H : _ = false |- _ => rewrite !H
                    end;
             rewrite ?nth_new, ?update_new)).

(** [detect_anomalies] appends to a list of its own what the three checks
    find, and leaves the log as it was. *)
Lemma detect_anomalies_run (st : store) :
  exists l,
    detect_anomalies st =
      (detected (input st), {| input := input st; heap := heap st ++ [l] |}).
Proof.
  destruct st as [r h].
  unfold detect_anomalies, detected, cell_checks, pack_voltage_check,
    voltage_imbalance_check, overheating_check, plausible_cell_voltage.
  cbn [input heap].
  destruct (cells r) as [[|c cs]|] eqn:Hcells;
    destruct (pack_voltage r) as [v|] eqn:Hpv;
    destruct (cell_count r) as [n|] eqn:Hcc;
    try destruct (0 <? n) eqn:Hn;
    try destruct (truediv (Float v) (Int n)) as [q|e] eqn:Hq;
    cbn [py_max py_min map];
    run_heap;
    repeat match goal with
           | |- context [PrimFloat.leb ?a ?b] =>
               destruct (PrimFloat.leb a b) eqn:?; cbn [negb andb]; run_heap
           end;
    eexists; reflexivity.
Qed.

(** C5: a log that meets the three conditions at once (spread of the cell
    voltages at least 0.05, greatest cell temperature at least 45,
    [pack_voltage / cell_count] outside [2.5, 4.5] with [cell_count > 0])
    gets exactly three entries, in the order voltage imbalance,
    overheating, pack-voltage mismatch. *)
Theorem detect_anomalies_all_three
        (st : store) (cs : list cell) (spread max_temp pv implied : float) (n : Z) :
  cells (input st) = Some cs ->
  voltage_spread cs = Ok spread ->
  (0.05 <=? spread)%float = true ->
  max_temperature cs = Ok max_temp ->
  (45 <=? max_temp)%float = true ->
  pack_voltage (input st) = Some pv ->
  cell_count (input st) = Some n ->
  0 < n ->
  truediv (Float pv) (Int n) = Ok implied ->
  (implied <? 2.5)%float = true \/ (4.5 <? implied)%float = true ->
  fst (detect_anomalies st) =
    Ok [ {| type := "voltage_imbalance";
            severity := if (0.10 <=? spread)%float then "major" else "minor";
            value := py_round spread 3 |};
         {| type := "overheating";
            severity := if (60 <=? max_temp)%float then "critical" else "warning";
            value := max_temp |};
         {| type := "pack_voltage_mismatch";
            severity := "warning";
            value := py_round implied 2 |} ].
Proof.
  intros Hcells Hspread Hs Htemp Ht Hpv Hcc Hn Hdiv Hout.
  destruct (detect_anomalies_run st) as [l ->]. cbn [fst].
  apply outside_range in Hout. apply Z.ltb_lt in Hn.
  unfold detected, cell_checks, pack_voltage_check.
  rewrite Hcells, Hpv, Hcc, Hn, Hdiv. cbn [outcome_bind]. rewrite Hout.
  destruct cs as [|c cs]; [discriminate|].
  unfold voltage_imbalance_check, overheating_check.
  unfold voltage_spread, max_temperature in *.
  rewrite Htemp. cbn [py_max py_min map outcome_bind] in *.
  injection Hspread as Hspread. rewrite Hspread, Hs, Ht.
  destruct (0.10 <=? spread)%float, (60 <=? max_temp)%float; reflexivity.
Qed.

Lemma detect_anomalies_all_three_witness :
  fst (detect_anomalies (fresh Fixtures.anomaly_log)) =
    Ok [ {| type := "voltage_imbalance"; severity := "major"; value := 0.11 |};
         {| type := "overheating"; severity := "critical"; value := 62 |};
         {| type := "pack_voltage_mismatch"; severity := "warning";
            value := 2.08 |} ].
Proof.
  exact (detect_anomalies_all_three
           (fresh Fixtures.anomaly_log) _
           (3.71 - 3.60) 62 200 (200 / 96) 96
           eq_refl eq_refl eq_refl eq_refl eq_refl eq_refl eq_refl eq_refl
           eq_refl (or_introl eq_refl)).
Defined.

(** ** The log is only read *)

(** The store does change during a call: the list of anomalies is an
    object of its own, filled by [append]. *)
Example detect_anomalies_fills_a_new_list :
  map (map type)
      (heap (snd (detect_anomalies
                    {| input := Fixtures.anomaly_log; heap := [[]] |})))
  = [ []; ["voltage_imbalance"; "overheating"; "pack_voltage_mismatch"] ]%string.
Proof. reflexivity. Qed.

(** *** Every operation keeps the dictionary *)

Lemma preserves_ret {A} (a : A) : preserves_input (ret a).
Proof. intros st. reflexivity. Qed.

Lemma preserves_raise {A} (e : exn) : preserves_input (@raise A e).
Proof. intros st. reflexivity. Qed.

Lemma preserves_lift {A} (o : outcome A) : preserves_input (lift o).
Proof. intros st. reflexivity. Qed.

Lemma preserves_bind {A B} (c : M A) (k : A -> M B) :
  preserves_input c -> (forall a, preserves_input (k a)) ->
  preserves_input (bind c k).
Proof.
  intros Hc Hk st. unfold bind. specialize (Hc st).
  destruct (c st) as [[a|e] st']; cbn [snd] in *.
  - now rewrite Hk.
  - exact Hc.
Qed.

Lemma preserves_contains {A} (field : raw -> option A) :
  preserves_input (contains field).
Proof. intros st. unfold contains. now destruct (field (input st)). Qed.

Lemma preserves_getitem {A} (key : string) (field : raw -> option A) :
  preserves_input (getitem key field).
Proof. intros st. unfold getitem. now destruct (field (input st)). Qed.

Lemma preserves_get_default {A} (field : raw -> option A) (d : A) :
  preserves_input (get_default field d).
Proof. intros st. unfold get_default. now destruct (field (input st)). Qed.

Lemma preserves_item {A} (key : string) (field : option A) :
  preserves_input (item key field).
Proof. intros st. now destruct field. Qed.

Lemma preserves_getindex {A} (l : list A) (i : nat) :
  preserves_input (getindex l i).
Proof. intros st. unfold getindex. now destruct (nth_error l i). Qed.

Lemma preserves_new_list : preserves_input new_list.
Proof. intros st. reflexivity. Qed.

Lemma preserves_list_append (l : loc) (a : anomaly) :
  preserves_input (list_append l a).
Proof. intros st. reflexivity. Qed.

Lemma preserves_list_items (l : loc) : preserves_input (list_items l).
Proof. intros st. reflexivity. Qed.

Lemma preserves_for_each {A B} (f : A -> M B) (l : list A) :
  (forall a, preserves_input (f a)) -> preserves_input (for_each f l).
Proof.
  intros Hf. induction l as [|a l IH]; cbn [for_each].
  - apply preserves_ret.
  - apply preserves_bind; [apply Hf|intros b].
    apply preserves_bind; [exact IH|intros bs]. apply preserves_ret.
Qed.

Lemma preserves_for_loop {A S} (l : list A) (body : A -> S -> M S) (s : S) :
  (forall a s, preserves_input (body a s)) ->
  preserves_input (for_loop l body s).
Proof.
  intros Hb. revert s. induction l as [|a l IH]; intros s; cbn [for_loop].
  - apply preserves_ret.
  - apply preserves_bind; [apply Hb|intros s']. apply IH.
Qed.

(** *** The operations that read the dictionary depend on it alone *)

Lemma reads_ret {A} (a : A) : reads (ret a).
Proof. intros st. reflexivity. Qed.

Lemma reads_raise {A} (e : exn) : reads (@raise A e).
Proof. intros st. reflexivity. Qed.

Lemma reads_lift {A} (o : outcome A) : reads (lift o).
Proof. intros st. reflexivity. Qed.

Lemma reads_bind {A B} (c : M A) (k : A -> M B) :
  reads c -> (forall a, reads (k a)) -> reads (bind c k).
Proof.
  intros Hc Hk st. unfold bind. rewrite (Hc st).
  pose proof (Hc (fresh (input st))) as E0.
  change (fresh (input (fresh (input st)))) with (fresh (input st)) in E0.
  destruct (c (fresh (input st))) as [o s0]. cbn [fst] in *.
  injection E0 as ->.
  destruct o as [a|e]; [|reflexivity].
  rewrite (Hk a st). reflexivity.
Qed.

Lemma reads_contains {A} (field : raw -> option A) : reads (contains field).
Proof. intros st. unfold contains. cbn. now destruct (field (input st)). Qed.

Lemma reads_getitem {A} (key : string) (field : raw -> option A) :
  reads (getitem key field).
Proof. intros st. unfold getitem. cbn. now destruct (field (input st)). Qed.

Lemma reads_get_default {A} (field : raw -> option A) (d : A) :
  reads (get_default field d).
Proof. intros st. unfold get_default. cbn. now destruct (field (input st)). Qed.

Lemma reads_item {A} (key : string) (field : option A) : reads (item key field).
Proof. intros st. now destruct field. Qed.

Lemma reads_getindex {A} (l : list A) (i : nat) : reads (getindex l i).
Proof. intros st. unfold getindex. now destruct (nth_error l i). Qed.

Lemma reads_for_each {A B} (f : A -> M B) (l : list A) :
  (forall a, reads (f a)) -> reads (for_each f l).
Proof.
  intros Hf. induction l as [|a l IH]; cbn [for_each].
  - apply reads_ret.
  - apply reads_bind; [apply Hf|intros b].
    apply reads_bind; [exact IH|intros bs]. apply reads_ret.
Qed.

Lemma reads_for_loop {A S} (l : list A) (body : A -> S -> M S) (s : S) :
  (forall a s, reads (body a s)) -> reads (for_loop l body s).
Proof.
  intros Hb. revert s. induction l as [|a l IH]; intros s; cbn [for_loop].
  - apply reads_ret.
  - apply reads_bind; [apply Hb|intros s']. apply IH.
Qed.

Create HintDb frame.
#[local] Hint Resolve reads_ret reads_raise reads_lift reads_contains
  reads_getitem reads_get_default reads_item reads_getindex : frame.

(** Goes through a computation that only reads, one operation at a time. *)
Ltac reader :=
  repeat first
    [ solve [auto with frame]
    | apply reads_bind; [|intro]
    | apply reads_for_each; intro
    | apply reads_for_loop; intros ? ?
    | match goal with
      | |- reads (if ?b then _ else _) => destruct b
      | |- reads (py_and _ _) => unfold py_and
      end ].

Lemma reads_compute_soh : reads compute_soh.
Proof. unfold compute_soh. reader. Qed.

Lemma reads_count_cycles (series : list soc_reading) :
  reads (count_cycles_from_soc series).
Proof. unfold count_cycles_from_soc. reader. Qed.

#[local] Hint Resolve preserves_ret preserves_raise preserves_lift
  preserves_contains preserves_getitem preserves_get_default preserves_item
  preserves_getindex preserves_new_list preserves_list_append
  preserves_list_items : frame.

(** Goes through a computation, one operation at a time. *)
Ltac frame :=
  repeat first
    [ solve [auto with frame]
    | apply preserves_bind; [|intro]
    | apply preserves_for_each; intro
    | apply preserves_for_loop; intros ? ?
    | match goal with
      | |- preserves_input (if ?b then _ else _) => destruct b
      | |- preserves_input (py_and _ _) => unfold py_and
      end ].

Lemma preserves_compute_soh : preserves_input compute_soh.
Proof. unfold compute_soh. frame. Qed.

Lemma preserves_count_cycles (series : list soc_reading) :
  preserves_input (count_cycles_from_soc series).
Proof. unfold count_cycles_from_soc. frame. Qed.

Lemma preserves_detect_anomalies : preserves_input detect_anomalies.
Proof. unfold detect_anomalies. frame. Qed.

(** *** The report *)

Section ReportProperties.

Variable datetime : Type.
Variable isoformat : datetime -> string.
Variable str_float : float -> string.

Local Abbreviation run_report :=
  (generate_report datetime isoformat str_float).

Lemma preserves_generate_report (utcnow : datetime) :
  preserves_input (run_report utcnow).
Proof.
  unfold generate_report.
  pose proof preserves_compute_soh. pose proof preserves_count_cycles.
  pose proof preserves_detect_anomalies.
  frame.
Qed.

Lemma generate_report_same_input (st1 st2 : store) (t1 t2 : datetime) :
  input st1 = input st2 ->
  same_but_time (fst (run_report t1 st1)) (fst (run_report t2 st2)).
Proof.
  intros E. unfold generate_report, bind.
  rewrite (reads_compute_soh st1), (reads_compute_soh st2), <- E.
  destruct (fst (compute_soh (fresh (input st1)))) as [soh|e];
    [|reflexivity].
  unfold get_default at 1 3. rewrite <- E.
  set (series := match soc_timeseries (input st1) with
                 | Some v => v
                 | None => []
                 end).
  assert (Hs : forall st : store,
             match soc_timeseries (input st1) with
             | Some v => (Ok v, st)
             | None => (Ok [], st)
             end = (Ok series, st)).
  { intros st. subst series. now destruct (soc_timeseries (input st1)). }
  rewrite !Hs.
  rewrite (reads_count_cycles series st1), (reads_count_cycles series st2),
    <- E.
  destruct (fst (count_cycles_from_soc series (fresh (input st1))))
    as [cycles|e]; [|reflexivity].
  destruct (detect_anomalies_run st1) as [l1 ->].
  destruct (detect_anomalies_run st2) as [l2 ->].
  rewrite <- E.
  destruct (detected (input st1)) as [anomalies|e]; [|reflexivity].
  unfold get_default. cbn [input].
  destruct (vehicle_id (input st1)); cbn; repeat split; reflexivity.
Qed.

(** C9: [generate_report] leaves the log as it was: every field of the
    dictionary the caller passed, the three sequences among them, has
    after the call the value it had before.  (The call does change the
    store: it creates the list of anomalies.) *)
Theorem generate_report_keeps_input (utcnow : datetime) (st : store) :
  let st' := snd (run_report utcnow st) in
  input st' = input st
  /\ cells (input st') = cells (input st)
  /\ soc_timeseries (input st') = soc_timeseries (input st)
  /\ cycle_history (input st') = cycle_history (input st).
Proof.
  cbv zeta. rewrite (preserves_generate_report utcnow st). repeat split.
Qed.

(** C8: two calls on equal logs give reports that agree on [vehicle_id],
    [soh], [cycles], [anomalies] and [explanation] (or raise the same
    exception), whatever the clock shows and whatever list objects earlier
    calls left in the store; in particular a call that follows another on
    the same dictionary repeats its report. *)
Theorem generate_report_deterministic
        (r : raw) (h1 h2 : list (list anomaly)) (t1 t2 : datetime) :
  same_but_time (fst (run_report t1 {| input := r; heap := h1 |}))
                (fst (run_report t2 {| input := r; heap := h2 |}))
  /\ (let st' := snd (run_report t1 {| input := r; heap := h1 |}) in
      same_but_time (fst (run_report t1 {| input := r; heap := h1 |}))
                    (fst (run_report t2 st'))).
Proof.
  split.
  - apply generate_report_same_input. reflexivity.
  - cbv zeta. apply generate_report_same_input.
    now rewrite preserves_generate_report.
Qed.

End ReportProperties.


(** * Further properties *)

(** ** The conversion of an int to a float, in general *)

Module Format.

(** An aligned mantissa is shifted to the exponent of its magnitude. *)
Lemma shr_fexp_exponent (m e : Z) (l : location) :
  e <= fexp prec emax (Zdigits2 m + e) ->
  snd (shr_fexp prec emax m e l) = fexp prec emax (Zdigits2 m + e).
Proof.
  intros He. unfold shr_fexp, shr.
  destruct (fexp prec emax (Zdigits2 m + e) - e) as [|n|n] eqn:En;
    cbn [snd]; lia.
Qed.

Lemma fexp_monotone (x y : Z) :
  x <= y -> fexp prec emax x <= fexp prec emax y.
Proof. unfold fexp. lia. Qed.

(** Rounding an aligned positive mantissa gives a number of the format
    that is not zero. *)
Lemma binary_round_aux_valid (s : bool) (m e : Z) (l : location) :
  0 < m ->
  SpecFloat.emin prec emax < Zdigits2 m + e ->
  e <= fexp prec emax (Zdigits2 m + e) ->
  let r := binary_round_aux prec emax s m e l in
  valid_binary r = true /\ is_zero_sf r = false.
Proof.
  intros Hm He Ha. unfold binary_round_aux.
  pose proof (Rounding.shr_fexp_pos m e l Hm He) as H1. cbv zeta in H1.
  pose proof (shr_fexp_exponent m e l Ha) as E1.
  destruct (shr_fexp prec emax m e l) as [mrs' e']. cbn [fst snd] in H1, E1.
  destruct H1 as [H1 H1e].
  pose proof (Rounding.round_nearest_even_bounds (shr_m mrs')
                (loc_of_shr_record mrs')) as Hb.
  set (m2 := round_nearest_even (shr_m mrs') (loc_of_shr_record mrs')) in *.
  assert (Hm2 : 0 < m2) by lia.
  assert (Hd : Zdigits2 (shr_m mrs') <= Zdigits2 m2).
  { rewrite (Rounding.Zdigits2_log2 m2 Hm2), (Rounding.Zdigits2_log2 _ H1).
    pose proof (Z.log2_le_mono (shr_m mrs') m2). lia. }
  assert (He2 : SpecFloat.emin prec emax < Zdigits2 m2 + e') by lia.
  assert (Ha2 : e' <= fexp prec emax (Zdigits2 m2 + e')).
  { rewrite E1 at 1. rewrite <- H1e. apply fexp_monotone. lia. }
  pose proof (Rounding.shr_fexp_pos m2 e' loc_Exact Hm2 He2) as H2.
  cbv zeta in H2.
  pose proof (shr_fexp_exponent m2 e' loc_Exact Ha2) as E2.
  destruct (shr_fexp prec emax m2 e' loc_Exact) as [mrs'' e''].
  cbn [fst snd] in H2, E2. destruct H2 as [H2 H2e].
  destruct (shr_m mrs'') as [|m3|m3] eqn:E3; try lia.
  destruct (e'' <=? emax - prec) eqn:Eb; [|split; reflexivity].
  split; [|reflexivity].
  cbn [valid_binary]. unfold bounded, canonical_mantissa.
  rewrite Eb, andb_true_r. apply Z.eqb_eq.
  cbn [Zdigits2] in H2e. rewrite H2e. symmetry. exact E2.
Qed.

Lemma binary_round_valid (s : bool) (p : positive) (e : Z) :
  SpecFloat.emin prec emax < Z.pos (digits2_pos p) + e ->
  let r := binary_round prec emax s p e in
  valid_binary r = true /\ is_zero_sf r = false.
Proof.
  intros He. unfold binary_round.
  pose proof (Rounding.shl_align_magnitude p e
                (fexp prec emax (Z.pos (digits2_pos p) + e))) as H.
  cbv zeta in H.
  assert (Ha : snd (shl_align p e (fexp prec emax (Z.pos (digits2_pos p) + e)))
               <= fexp prec emax (Z.pos (digits2_pos p) + e)).
  { unfold shl_align.
    destruct (fexp prec emax (Z.pos (digits2_pos p) + e) - e) eqn:E;
      cbn [snd]; lia. }
  destruct (shl_align p e _) as [mz ez]. cbn [fst snd] in H, Ha.
  apply binary_round_aux_valid; cbn [Zdigits2]; rewrite ?H; lia.
Qed.

(** [float(z)] is not [0.0] unless [z] is [0]. *)
Lemma float_of_nonzero (z : Z) :
  z <> 0 ->
  (SF2Prim (binary_normalize prec emax z 0 false) =? 0)%float = false.
Proof.
  intros Hz.
  assert (H : valid_binary (binary_normalize prec emax z 0 false) = true
              /\ is_zero_sf (binary_normalize prec emax z 0 false) = false).
  { destruct z as [|p|p]; [congruence| |]; cbn [binary_normalize];
      apply binary_round_valid; change (SpecFloat.emin prec emax) with (-1074);
      pose proof (Pos2Z.is_pos (digits2_pos p)); lia. }
  destruct H as [Hv Hnz].
  rewrite eqb_spec, (Prim2SF_SF2Prim _ Hv).
  change (Prim2SF 0) with (S754_zero false).
  destruct (binary_normalize prec emax z 0 false) as [s|s| |s m e];
    try destruct s; try discriminate; reflexivity.
Qed.

End Format.

(** [x / n] for a float [x] and an int [n] other than [0]: a float, or
    [OverflowError] when [n] has no float. *)
Lemma truediv_float_int (x : float) (n : Z) :
  n <> 0 ->
  truediv (Float x) (Int n)
  = if DBL_OVERFLOW <=? Z.abs n then Raise OverflowError
    else Ok (x / SF2Prim (binary_normalize prec emax n 0 false))%float.
Proof.
  intros Hn. cbn [truediv to_float outcome_bind]. unfold float_of_int.
  destruct (DBL_OVERFLOW <=? Z.abs n); [reflexivity|].
  cbn [outcome_bind]. unfold float_truediv.
  now rewrite (Format.float_of_nonzero n Hn).
Qed.

(** ** State of health, by branch *)

Lemma for_each_energy_run (h : list cycle) (st : store) :
  for_each (fun c => item "energy_kwh" (energy_kwh c)) h st = (energies h, st).
Proof.
  induction h as [|c h IH]; [reflexivity|].
  cbn [for_each energies]. unfold bind at 1.
  destruct (energy_kwh c) as [e|]; cbn [item]; [|reflexivity].
  unfold ret at 1. unfold bind at 1. rewrite IH.
  destruct (energies h); reflexivity.
Qed.

(** The division by the span of the heuristic is a division by one. *)
Lemma truediv_span (x : float) :
  truediv (Float x) (Float (4.2 - 3.2)) = Ok (x / 1.0)%float.
Proof. reflexivity. Qed.

(** [compute_soh] reads the log and returns what [soh_of] says. *)
Lemma compute_soh_run (st : store) :
  compute_soh st = (soh_of (input st), st).
Proof.
  pose proof (fun h st' => for_each_energy_run h st') as Hfor.
  unfold soh_of, mean_energy, mean_voltage, estimate.
  destruct (measured_capacity_kwh (input st)) as [m|] eqn:Hm;
    destruct (nominal_capacity_kwh (input st)) as [n|] eqn:Hn;
    destruct (cycle_history (input st)) as [[|c h]|] eqn:Hh;
    destruct (cells (input st)) as [[|c' cs]|] eqn:Hc;
    open_store st; unfold compute_soh; run_reads;
    rewrite ?Hfor; run_reads;
    repeat (cbn [outcome_bind outcome_map]; rewrite ?truediv_span;
            match goal with
            | |- context [energies ?l] => destruct (energies l)
            | |- context [truediv ?a ?b] => destruct (truediv a b)
            end;
            run_reads);
    reflexivity.
Qed.

(** The mean of an empty history is not defined. *)
Lemma mean_energy_nonempty (h : list cycle) (avg : float) :
  mean_energy h = Ok avg -> exists c r, h = c :: r.
Proof.
  destruct h as [|c r]; [discriminate|]. intros _. now exists c, r.
Qed.

(** X1: without a measured capacity, a non-empty cycle history decides,
    whatever the cells are: the method is "cycle_history_estimate", the
    confidence "medium" and the percentage
    [round(mean energy / nominal * 100, 2)]. *)
Theorem compute_soh_cycle_history (st : store) (h : list cycle) (avg n : float) :
  measured_capacity_kwh (input st) = None ->
  cycle_history (input st) = Some h ->
  mean_energy h = Ok avg ->
  nominal_capacity_kwh (input st) = Some n ->
  (n =? 0)%float = false ->
  compute_soh st =
    (Ok {| soh_percent := Float (py_round (avg / n * 100) 2);
           method := "cycle_history_estimate";
           confidence := "medium" |}, st).
Proof.
  intros Hm Hh Havg Hn Hz. rewrite compute_soh_run. f_equal.
  destruct (mean_energy_nonempty h avg Havg) as [c [r ->]].
  unfold soh_of. rewrite Hm, Hn, Hh, Havg. cbn [outcome_bind].
  unfold estimate. cbn [truediv to_float outcome_bind].
  unfold float_truediv. rewrite Hz. reflexivity.
Qed.

Lemma compute_soh_cycle_history_witness :
  compute_soh (fresh Fixtures.sample_log_cycle) =
    (Ok {| soh_percent := Float 76.25;
           method := "cycle_history_estimate";
           confidence := "medium" |},
     fresh Fixtures.sample_log_cycle).
Proof.
  exact (compute_soh_cycle_history (fresh Fixtures.sample_log_cycle) _
           61.0 80.0 eq_refl eq_refl eq_refl eq_refl eq_refl).
Defined.

Lemma estimate_shape (q : outcome float) (m c : string) (s : soh) :
  estimate q m c = Ok s ->
  method s = m /\ confidence s = c /\ exists f, soh_percent s = Float f.
Proof.
  unfold estimate. destruct q as [x|e]; [|discriminate].
  cbn. intros E. injection E as <-. cbn. eauto.
Qed.

(** Every result of [soh_of] is of one of the four kinds. *)
Lemma soh_of_shape (r : raw) (s : soh) : soh_of r = Ok s -> soh_shape s.
Proof.
  unfold soh_of, soh_shape.
  destruct (measured_capacity_kwh r), (nominal_capacity_kwh r);
    try (intros E; apply estimate_shape in E; tauto);
    destruct (cycle_history r) as [[|c h]|];
    try (destruct (mean_energy (c :: h)); [|discriminate]; cbn [outcome_bind];
         try discriminate;
         intros E; apply estimate_shape in E; tauto);
    destruct (cells r) as [[|c' cs]|];
    try (destruct (mean_voltage (c' :: cs)); [|discriminate];
         cbn; intros E; injection E as <-; cbn; eauto 10);
    intros E; injection E as <-; cbn; tauto.
Qed.

(** X2: whatever [compute_soh] returns pairs its method with the
    confidence of that method ("measured_capacity" with "high",
    "cycle_history_estimate" with "medium", "voltage_heuristic" with
    "low", "unknown" with "none"), and its percentage is a float, except
    for "unknown", where it is the int 0. *)
Theorem compute_soh_result_shape (st : store) (s : soh) :
  fst (compute_soh st) = Ok s -> soh_shape s.
Proof.
  rewrite compute_soh_run. cbn [fst]. apply soh_of_shape.
Qed.

Lemma compute_soh_result_shape_witness :
  soh_shape {| soh_percent := Float 65.0;
               method := "voltage_heuristic";
               confidence := "low" |}.
Proof.
  exact (compute_soh_result_shape (fresh Fixtures.sample_log_voltage) _
           eq_refl).
Defined.

(** The energies are as many as the entries; a failure names an entry
    without energy. *)
Lemma energies_length (h : list cycle) (es : list float) :
  energies h = Ok es -> List.length es = List.length h.
Proof.
  revert es. induction h as [|c h IH]; intros es; cbn [energies].
  - intros E. injection E as <-. reflexivity.
  - destruct (energy_kwh c); [|discriminate].
    destruct (energies h) as [es'|]; [|discriminate].
    cbn. intros E. injection E as <-. cbn. now rewrite (IH es').
Qed.

Lemma energies_failure (h : list cycle) (e : exn) :
  energies h = Raise e ->
  e = KeyError "energy_kwh" /\ exists c, In c h /\ energy_kwh c = None.
Proof.
  induction h as [|c h IH]; cbn [energies]; [discriminate|].
  destruct (energy_kwh c) eqn:Ec.
  - destruct (energies h) as [es|e']; [discriminate|].
    cbn. intros E. injection E as <-.
    destruct (IH eq_refl) as [-> [c' [Hin Hc']]].
    split; [reflexivity|]. exists c'. split; [now right|exact Hc'].
  - intros E. injection E as <-. split; [reflexivity|].
    exists c. split; [now left|exact Ec].
Qed.

(** The mean of a sequence that is neither empty nor too long is
    defined. *)
Lemma mean_defined (l : list float) (z : Z) :
  l <> [] -> 0 < z <= PY_SSIZE_T_MAX ->
  exists q, truediv (sum_floats l) (Int z) = Ok q.
Proof.
  intros Hl Hz. destruct l as [|x l]; [congruence|].
  cbn [sum_floats]. apply truediv_by_len. exact Hz.
Qed.

Lemma float_truediv_failure (a b : float) (e : exn) :
  truediv (Float a) (Float b) = Raise e ->
  e = ZeroDivisionError /\ (b =? 0)%float = true.
Proof.
  cbn [truediv to_float outcome_bind]. unfold float_truediv.
  destruct (b =? 0)%float; [|discriminate].
  intros E. injection E as <-. split; reflexivity.
Qed.

Lemma estimate_failure (a b : float) (m c : string) (e : exn) :
  estimate (truediv (Float a) (Float b)) m c = Raise e ->
  e = ZeroDivisionError /\ (b =? 0)%float = true.
Proof.
  unfold estimate. intros E. apply float_truediv_failure with (a := a).
  destruct (truediv (Float a) (Float b)); [discriminate|].
  cbn in E. injection E as <-. reflexivity.
Qed.

Lemma mean_energy_failure (h : list cycle) (e : exn) :
  h <> [] -> len h <= PY_SSIZE_T_MAX ->
  mean_energy h = Raise e ->
  e = KeyError "energy_kwh" /\ exists c, In c h /\ energy_kwh c = None.
Proof.
  intros Hne Hlen. unfold mean_energy.
  destruct (energies h) as [es|e'] eqn:E; cbn [outcome_bind].
  - pose proof (energies_length h es E) as HL.
    destruct (mean_defined es (len h)) as [q ->]; [| |discriminate].
    + destruct es; [|discriminate]. destruct h; [congruence|discriminate].
    + split; [|exact Hlen]. unfold len. destruct h; [congruence|].
      cbn [List.length]. lia.
  - intros E'. injection E' as <-. now apply energies_failure.
Qed.

Lemma mean_voltage_defined (cs : list cell) :
  cs <> [] -> len cs <= PY_SSIZE_T_MAX -> exists v, mean_voltage cs = Ok v.
Proof.
  intros Hne Hlen. unfold mean_voltage. apply mean_defined.
  - destruct cs; [congruence|discriminate].
  - split; [|exact Hlen]. unfold len. destruct cs; [congruence|].
    cbn [List.length]. lia.
Qed.

(** Why [soh_of] fails, when it does. *)
Lemma soh_of_failure (r : raw) (e : exn) :
  sequences_bounded r -> soh_of r = Raise e -> soh_failure r e.
Proof.
  intros [Bh Bc]. unfold soh_of, soh_failure.
  destruct (measured_capacity_kwh r) as [m|];
    destruct (nominal_capacity_kwh r) as [n|] eqn:Hn;
    try (intros E; apply estimate_failure in E; destruct E as [-> E];
         left; eauto);
    destruct (cycle_history r) as [[|c h]|] eqn:Hh;
    try (destruct (mean_energy (c :: h)) as [avg|e'] eqn:Em;
         cbn [outcome_bind];
         [ intros E;
           first [ apply estimate_failure in E; destruct E as [-> E];
                   left; eauto
                 | injection E as <-; right; left; split; reflexivity ]
         | intros E; injection E as <-;
           destruct (mean_energy_failure (c :: h) e') as [-> [c0 [Hin H0]]];
           [discriminate|now apply Bh|exact Em|];
           right; right; split; [reflexivity|]; eauto ]);
    destruct (cells r) as [[|c' cs]|] eqn:Hc;
    try discriminate;
    destruct (mean_voltage_defined (c' :: cs)) as [v ->];
    try discriminate; now apply Bc.
Qed.

(** X3: on a log whose sequences are of a length a Python list can have,
    [compute_soh] raises nothing but [ZeroDivisionError], and then the
    rated capacity is zero, or [KeyError] for [nominal_capacity_kwh], and
    then that key is missing, or [KeyError] for [energy_kwh], and then an
    entry of the cycle history lacks it.  (Logs are of type [raw]: the
    numeric fields hold numbers and every cell has its voltage.) *)
Theorem compute_soh_failure_reason (st : store) (e : exn) :
  sequences_bounded (input st) ->
  fst (compute_soh st) = Raise e ->
  soh_failure (input st) e.
Proof.
  rewrite compute_soh_run. cbn [fst]. apply soh_of_failure.
Qed.

Lemma compute_soh_failure_reason_witness :
  soh_failure Cases.history_without_nominal (KeyError "nominal_capacity_kwh").
Proof.
  apply (compute_soh_failure_reason (fresh Cases.history_without_nominal)).
  - split; intros l E; injection E as <-; discriminate.
  - reflexivity.
Defined.

(** X4: a log with cycle history (its mean energy defined) and no rated
    capacity makes [compute_soh] raise [KeyError] for
    [nominal_capacity_kwh], also when it holds a measured capacity and
    cells. *)
Theorem compute_soh_missing_nominal (st : store) (h : list cycle) (avg : float) :
  nominal_capacity_kwh (input st) = None ->
  cycle_history (input st) = Some h ->
  mean_energy h = Ok avg ->
  compute_soh st = (Raise (KeyError "nominal_capacity_kwh"), st).
Proof.
  intros Hn Hh Havg. rewrite compute_soh_run. f_equal.
  destruct (mean_energy_nonempty h avg Havg) as [c [r ->]].
  unfold soh_of. rewrite Hn, Hh, Havg.
  destruct (measured_capacity_kwh (input st)); reflexivity.
Qed.

Lemma compute_soh_missing_nominal_witness :
  compute_soh (fresh Cases.history_without_nominal) =
    (Raise (KeyError "nominal_capacity_kwh"),
     fresh Cases.history_without_nominal).
Proof.
  exact (compute_soh_missing_nominal (fresh Cases.history_without_nominal)
           _ 61.0 eq_refl eq_refl eq_refl).
Defined.

(** X5: a rated capacity of zero ([0.0] or [-0.0]) makes [compute_soh]
    raise [ZeroDivisionError] whenever a measured capacity is present, or
    else a cycle history with a mean energy. *)
Theorem compute_soh_zero_division (st : store) (n : float) :
  nominal_capacity_kwh (input st) = Some n ->
  (n =? 0)%float = true ->
  (exists m, measured_capacity_kwh (input st) = Some m)
  \/ (exists h avg, cycle_history (input st) = Some h
                    /\ mean_energy h = Ok avg) ->
  compute_soh st = (Raise ZeroDivisionError, st).
Proof.
  intros Hn Hz H. rewrite compute_soh_run. f_equal.
  unfold soh_of. rewrite Hn.
  assert (Hdiv : forall a m c,
             estimate (truediv (Float a) (Float n)) m c
             = Raise ZeroDivisionError).
  { intros a m c. unfold estimate. cbn [truediv to_float outcome_bind].
    unfold float_truediv. now rewrite Hz. }
  destruct (measured_capacity_kwh (input st)) as [m|] eqn:Hm;
    [apply Hdiv|].
  destruct H as [[m Hm']|[h [avg [Hh Havg]]]]; [discriminate|].
  destruct (mean_energy_nonempty h avg Havg) as [c [r ->]].
  rewrite Hh, Havg. cbn [outcome_bind]. apply Hdiv.
Qed.

Lemma compute_soh_zero_division_witness :
  compute_soh (fresh Cases.zero_nominal) =
    (Raise ZeroDivisionError, fresh Cases.zero_nominal).
Proof.
  apply (compute_soh_zero_division (fresh Cases.zero_nominal) 0%float).
  - reflexivity.
  - reflexivity.
  - left. exists 53.25%float. reflexivity.
Defined.

(** The log without its measured capacity. *)
Lemma soh_of_ignores_measured (r r' : raw) :
  nominal_capacity_kwh r = None ->
  nominal_capacity_kwh r' = None ->
  cycle_history r' = cycle_history r ->
  cells r' = cells r ->
  soh_of r' = soh_of r.
Proof.
  intros Hn Hn' Hh Hc. unfold soh_of. rewrite Hn, Hn', Hh, Hc.
  destruct (measured_capacity_kwh r), (measured_capacity_kwh r');
    reflexivity.
Qed.

(** X6: without a rated capacity the measured capacity is never used: two
    logs that both lack [nominal_capacity_kwh] and agree on
    [cycle_history] and [cells] get the same result from [compute_soh],
    whatever their measured capacities are. *)
Theorem compute_soh_ignores_measured (st st' : store) :
  nominal_capacity_kwh (input st) = None ->
  nominal_capacity_kwh (input st') = None ->
  cycle_history (input st') = cycle_history (input st) ->
  cells (input st') = cells (input st) ->
  fst (compute_soh st') = fst (compute_soh st).
Proof.
  intros Hn Hn' Hh Hc. rewrite !compute_soh_run. cbn [fst].
  now apply soh_of_ignores_measured.
Qed.

Lemma compute_soh_ignores_measured_witness :
  fst (compute_soh
         (fresh {| vehicle_id := None;
                   nominal_capacity_kwh := None;
                   measured_capacity_kwh := Some 50.0%float;
                   pack_voltage := None;
                   cell_count := None;
                   cells := Some [Fixtures.mkcell 5.2 25;
                                  Fixtures.mkcell 5.2 25];
                   soc_timeseries := None;
                   cycle_history := None |}))
  = fst (compute_soh (fresh Fixtures.high_voltage_log)).
Proof.
  apply compute_soh_ignores_measured; reflexivity.
Defined.

(** ** Anomalies, by threshold *)

(** A value at least as large as a positive float is at least as large as
    every smaller positive float. *)
Lemma leb_chain (a b z : float) (ma mb : positive) (ea eb : Z) :
  Prim2SF a = S754_finite false ma ea ->
  Prim2SF b = S754_finite false mb eb ->
  ea < eb \/ (ea = eb /\ (ma <= mb)%positive) ->
  (b <=? z)%float = true -> (a <=? z)%float = true.
Proof.
  intros Ha Hb Hab. rewrite !leb_spec, Ha, Hb. unfold SFleb, SFcompare.
  destruct (Prim2SF z) as [s|s| |s m e]; try destruct s;
    try discriminate; try reflexivity.
  change (Pos.compare_cont Eq ma m) with (Pos.compare ma m).
  change (Pos.compare_cont Eq mb m) with (Pos.compare mb m).
  destruct (Z.compare_spec eb e) as [E|E|E]; try discriminate;
    destruct (Z.compare_spec ea e) as [E'|E'|E']; try reflexivity; try lia.
  destruct (Pos.compare_spec mb m) as [M|M|M]; try discriminate;
    destruct (Pos.compare_spec ma m) as [M'|M'|M']; try reflexivity; lia.
Qed.

Lemma major_is_imbalance (spread : float) :
  (0.10 <=? spread)%float = true -> (0.05 <=? spread)%float = true.
Proof.
  apply (leb_chain 0.05 0.10 spread
           7205759403792794 7205759403792794 (-57) (-56));
    [reflexivity|reflexivity|left; reflexivity].
Qed.

Lemma critical_is_overheating (max_temp : float) :
  (60 <=? max_temp)%float = true -> (45 <=? max_temp)%float = true.
Proof.
  apply (leb_chain 45 60 max_temp
           6333186975989760 8444249301319680 (-47) (-47));
    [reflexivity|reflexivity|right; split; [reflexivity|discriminate]].
Qed.

(** The cell-level checks, by the two lower thresholds. *)
Lemma cell_checks_by_threshold (r : raw) (cs : list cell)
      (spread max_temp : float) :
  cells r = Some cs ->
  voltage_spread cs = Ok spread ->
  max_temperature cs = Ok max_temp ->
  cell_checks r = Ok (voltage_entries spread ++ temperature_entries max_temp).
Proof.
  intros Hc Hs Ht. unfold cell_checks. rewrite Hc.
  destruct cs as [|c cs]; [discriminate|].
  unfold voltage_imbalance_check, overheating_check.
  unfold voltage_spread, max_temperature in Hs, Ht. rewrite Ht.
  cbn [py_max py_min map outcome_bind] in *. injection Hs as Hs.
  rewrite Hs. unfold voltage_entries, temperature_entries.
  pose proof (major_is_imbalance spread) as H1.
  pose proof (critical_is_overheating max_temp) as H2.
  destruct (0.10 <=? spread)%float; [rewrite (H1 eq_refl)|];
    (destruct (60 <=? max_temp)%float; [rewrite (H2 eq_refl)|]);
    destruct (0.05 <=? spread)%float, (45 <=? max_temp)%float;
    reflexivity.
Qed.

(** X7: for cells with spread [s] and greatest temperature [t], the
    cell-level entries are decided by one threshold each: a
    voltage-imbalance entry exactly when [s >= 0.05] (major when
    [s >= 0.10], minor otherwise), an overheating entry exactly when
    [t >= 45] (critical when [t >= 60], warning otherwise); the
    pack-level entry, if any, comes after them. *)
Theorem detect_anomalies_by_threshold
        (st : store) (cs : list cell) (spread max_temp : float) :
  cells (input st) = Some cs ->
  voltage_spread cs = Ok spread ->
  max_temperature cs = Ok max_temp ->
  fst (detect_anomalies st) =
    outcome_map
      (fun pack =>
         voltage_entries spread ++ temperature_entries max_temp ++ pack)
      (pack_voltage_check (input st)).
Proof.
  intros Hc Hs Ht. destruct (detect_anomalies_run st) as [l ->]. cbn [fst].
  unfold detected.
  rewrite (cell_checks_by_threshold _ cs spread max_temp Hc Hs Ht).
  cbn [outcome_bind].
  destruct (pack_voltage_check (input st)); cbn; [|reflexivity].
  now rewrite app_assoc.
Qed.

Lemma detect_anomalies_by_threshold_witness :
  fst (detect_anomalies (fresh Fixtures.sample_log_measured)) =
    Ok [ {| type := "voltage_imbalance"; severity := "major";
            value := 0.1 |};
         {| type := "overheating"; severity := "critical"; value := 61 |} ].
Proof.
  exact (detect_anomalies_by_threshold (fresh Fixtures.sample_log_measured)
           _ (3.75 - 3.65) 61 eq_refl eq_refl eq_refl).
Defined.

(** X8: a pack whose cells spread less than 0.05 V and stay below 45
    degrees, and whose implied cell voltage is inside [2.5, 4.5], gets an
    empty list; so does one whose [cell_count] is not positive or is
    missing, with the same cells. *)
Theorem detect_anomalies_healthy
        (st : store) (cs : list cell) (spread max_temp : float) :
  cells (input st) = Some cs ->
  voltage_spread cs = Ok spread ->
  max_temperature cs = Ok max_temp ->
  (0.05 <=? spread)%float = false ->
  (45 <=? max_temp)%float = false ->
  (pack_voltage (input st) = None
   \/ cell_count (input st) = None
   \/ (exists n, cell_count (input st) = Some n /\ n <= 0)
   \/ (exists v n q,
         pack_voltage (input st) = Some v /\ cell_count (input st) = Some n
         /\ truediv (Float v) (Int n) = Ok q
         /\ plausible_cell_voltage q = true)) ->
  fst (detect_anomalies st) = Ok [].
Proof.
  intros Hc Hs Ht Hlow Hcool Hpack.
  destruct (detect_anomalies_run st) as [l ->]. cbn [fst].
  unfold detected.
  rewrite (cell_checks_by_threshold _ cs spread max_temp Hc Hs Ht).
  unfold voltage_entries, temperature_entries. rewrite Hlow, Hcool.
  cbn [outcome_bind app]. unfold pack_voltage_check.
  destruct Hpack as [H|[H|[[n [H Hn]]|[v [n [q [Hv [Hn [Hq Hp]]]]]]]]].
  - rewrite H. reflexivity.
  - rewrite H. destruct (pack_voltage (input st)); reflexivity.
  - rewrite H. replace (0 <? n) with false by (symmetry; now apply Z.ltb_ge).
    destruct (pack_voltage (input st)); reflexivity.
  - rewrite Hv, Hn, Hq. cbn [outcome_bind]. rewrite Hp.
    destruct (0 <? n); reflexivity.
Qed.

Lemma detect_anomalies_healthy_witness :
  fst (detect_anomalies (fresh Cases.healthy_log)) = Ok [].
Proof.
  apply (detect_anomalies_healthy (fresh Cases.healthy_log)
           _ (3.71 - 3.70) 26 eq_refl eq_refl eq_refl eq_refl eq_refl).
  right. right. right.
  exists 355.2%float, 96, (355.2 / 96)%float.
  repeat split; reflexivity.
Defined.

(** ** Anomalies: what a list can look like, and the one way to fail *)

(** Finds which of the two cell-level entries a list holds. *)
Ltac pick_entries :=
  let try_with b1 b2 :=
    (eexists; exists b1, b2;
     split; [reflexivity|];
     split; [reflexivity|repeat (constructor; [cbn; tauto|]); constructor]) in
  first [ try_with true true | try_with true false
        | try_with false true | try_with false false ].

Lemma cell_checks_shape (r : raw) :
  exists a b1 b2,
    cell_checks r = Ok a
    /\ map type a = types_in_order b1 b2 false
    /\ Forall anomaly_ok a.
Proof.
  unfold cell_checks, anomaly_ok.
  destruct (cells r) as [[|c cs]|]; try pick_entries.
  unfold voltage_imbalance_check, overheating_check.
  cbn [py_max py_min map outcome_bind].
  set (s := (_ - _)%float). set (t := fold_left _ (map temp_c cs) (temp_c c)).
  destruct (0.10 <=? s)%float; [|destruct (0.05 <=? s)%float];
    (destruct (60 <=? t)%float; [|destruct (45 <=? t)%float]);
    pick_entries.
Qed.

Lemma pack_voltage_check_shape (r : raw) (p : list anomaly) :
  pack_voltage_check r = Ok p ->
  exists b3, map type p = types_in_order false false b3
             /\ Forall anomaly_ok p.
Proof.
  unfold pack_voltage_check, anomaly_ok.
  destruct (pack_voltage r) as [v|], (cell_count r) as [n|];
    try (intros E; injection E as <-; exists false; split; constructor).
  destruct (0 <? n);
    [|intros E; injection E as <-; exists false; split; constructor].
  destruct (truediv (Float v) (Int n)) as [q|]; [|discriminate].
  cbn [outcome_bind].
  destruct (plausible_cell_voltage q); intros E; injection E as <-.
  - exists false. split; constructor.
  - exists true. split; [reflexivity|].
    constructor; [cbn; tauto|constructor].
Qed.

(** X9: a list that [detect_anomalies] returns has at most one entry per
    check, in the order voltage imbalance, overheating, pack-voltage
    mismatch (so at most three entries), and each entry has a severity of
    its type: major or minor, critical or warning, warning. *)
Theorem detect_anomalies_shape (st : store) (l : list anomaly) :
  fst (detect_anomalies st) = Ok l ->
  (exists b1 b2 b3, map type l = types_in_order b1 b2 b3)
  /\ Forall anomaly_ok l
  /\ (List.length l <= 3)%nat.
Proof.
  destruct (detect_anomalies_run st) as [l0 ->]. cbn [fst]. unfold detected.
  destruct (cell_checks_shape (input st)) as [a [b1 [b2 [-> [Ha Fa]]]]].
  cbn [outcome_bind].
  destruct (pack_voltage_check (input st)) as [p|] eqn:Ep; [|discriminate].
  destruct (pack_voltage_check_shape _ p Ep) as [b3 [Hp Fp]].
  cbn [outcome_bind]. intros E. injection E as <-.
  assert (Ht : map type (a ++ p) = types_in_order b1 b2 b3).
  { rewrite map_app, Ha, Hp. unfold types_in_order.
    destruct b1, b2, b3; reflexivity. }
  split; [now exists b1, b2, b3|]. split; [now apply Forall_app|].
  rewrite <- (length_map type), Ht. unfold types_in_order.
  destruct b1, b2, b3; cbn; lia.
Qed.

Lemma detect_anomalies_shape_witness :
  (exists b1 b2 b3,
      ["voltage_imbalance"; "overheating"; "pack_voltage_mismatch"]%string
      = types_in_order b1 b2 b3)
  /\ Forall anomaly_ok
       [ {| type := "voltage_imbalance"; severity := "major"; value := 0.11 |};
         {| type := "overheating"; severity := "critical"; value := 62 |};
         {| type := "pack_voltage_mismatch"; severity := "warning";
            value := 2.08 |} ]
  /\ (3 <= 3)%nat.
Proof.
  exact (detect_anomalies_shape (fresh Fixtures.anomaly_log) _ eq_refl).
Defined.

Lemma cell_checks_defined (r : raw) : exists a, cell_checks r = Ok a.
Proof. destruct (cell_checks_shape r) as [a [_ [_ [H _]]]]. now exists a. Qed.

(** The pack-level check fails exactly on a cell count with no float. *)
Lemma pack_voltage_check_outcome (r : raw) :
  (cell_count_overflows r -> pack_voltage_check r = Raise OverflowError)
  /\ (~ cell_count_overflows r -> exists p, pack_voltage_check r = Ok p).
Proof.
  unfold cell_count_overflows, pack_voltage_check. split.
  - intros [v [n [-> [-> Hn]]]].
    pose proof ssize_below_overflow as Hb. unfold PY_SSIZE_T_MAX in Hb.
    replace (0 <? n) with true by (symmetry; apply Z.ltb_lt; lia).
    rewrite truediv_float_int by lia.
    replace (DBL_OVERFLOW <=? Z.abs n) with true; [reflexivity|].
    symmetry. apply Z.leb_le. lia.
  - intros H.
    destruct (pack_voltage r) as [v|]; [|eexists; reflexivity].
    destruct (cell_count r) as [n|]; [|eexists; reflexivity].
    destruct (0 <? n) eqn:Hn; [|eexists; reflexivity].
    apply Z.ltb_lt in Hn. rewrite truediv_float_int by lia.
    destruct (DBL_OVERFLOW <=? Z.abs n) eqn:Ho.
    + exfalso. apply H. exists v, n. apply Z.leb_le in Ho.
      repeat split. lia.
    + eexists. reflexivity.
Qed.

(** X10: [detect_anomalies] raises in one case only, [OverflowError]
    when [pack_voltage] is present and [cell_count] is too large for a
    float (at least 2^1024 - 2^970); on every other log it returns a
    list.  A [cell_count] of zero or less is never divided by.  (Logs are
    of type [raw]: every cell has its voltage and its temperature, and
    the numeric fields hold numbers.) *)
Theorem detect_anomalies_failure (st : store) :
  (cell_count_overflows (input st) ->
   fst (detect_anomalies st) = Raise OverflowError)
  /\ (~ cell_count_overflows (input st) ->
      exists l, fst (detect_anomalies st) = Ok l)
  /\ (forall n, cell_count (input st) = Some n -> n <= 0 ->
      exists l, fst (detect_anomalies st) = Ok l).
Proof.
  destruct (detect_anomalies_run st) as [l0 ->]. cbn [fst]. unfold detected.
  destruct (cell_checks_defined (input st)) as [a ->]. cbn [outcome_bind].
  destruct (pack_voltage_check_outcome (input st)) as [H1 H2].
  assert (H3 : ~ cell_count_overflows (input st) ->
               exists l, outcome_bind (pack_voltage_check (input st))
                           (fun b => Ok (a ++ b)) = Ok l).
  { intros H. destruct (H2 H) as [p ->]. eexists. reflexivity. }
  split; [|split].
  - intros H. now rewrite (H1 H).
  - exact H3.
  - intros n Hn Hle. apply H3. intros [v [n' [_ [Hn' Ho]]]].
    pose proof ssize_below_overflow as Hb. unfold PY_SSIZE_T_MAX in Hb.
    rewrite Hn in Hn'. injection Hn' as <-. lia.
Qed.

Lemma detect_anomalies_failure_witness :
  fst (detect_anomalies (fresh Cases.huge_cell_count)) = Raise OverflowError
  /\ exists l, fst (detect_anomalies (fresh Fixtures.anomaly_log)) = Ok l.
Proof.
  split.
  - apply (proj1 (detect_anomalies_failure (fresh Cases.huge_cell_count))).
    exists 350.0%float, (2 ^ 1024). repeat split. discriminate.
  - apply (proj1 (proj2 (detect_anomalies_failure
                           (fresh Fixtures.anomaly_log)))).
    intros [v [n [_ [E Hn]]]]. injection E as <-. revert Hn. apply Z.lt_nge.
    reflexivity.
Defined.

(** ** Cycle counting: what the two numbers have to do with each other *)

Lemma total_soc_movement_cons (a b : soc_reading) (r : list soc_reading) :
  total_soc_movement (a :: b :: r)
  = Z.abs (soc b - soc a) + total_soc_movement (b :: r).
Proof. reflexivity. Qed.

Lemma deep_transitions_cons (a b : soc_reading) (r : list soc_reading) :
  deep_transitions (a :: b :: r)
  = (if deep_discharge (a, b) then 1 else 0) + deep_transitions (b :: r).
Proof.
  unfold deep_transitions.
  change (consecutive_pairs (a :: b :: r))
    with ((a, b) :: consecutive_pairs (b :: r)).
  cbn [filter]. destruct (deep_discharge (a, b)); cbn [List.length]; lia.
Qed.

Lemma total_soc_movement_nonneg (series : list soc_reading) :
  0 <= total_soc_movement series.
Proof.
  induction series as [|a l IH]; [reflexivity|].
  destruct l as [|b r]; [reflexivity|].
  rewrite total_soc_movement_cons. lia.
Qed.

(** A deep discharge ends at 20 or less, so the next pair cannot be one:
    deep discharges take two samples each. *)
Lemma deep_transitions_spaced (series : list soc_reading) :
  0 <= deep_transitions series
  /\ 2 * deep_transitions series <= len series
  /\ (first_soc series < 90 ->
      series <> [] -> 2 * deep_transitions series <= len series - 1).
Proof.
  induction series as [|a l IH];
    [cbn; repeat split; intros; try congruence; lia|].
  destruct l as [|b r]; [cbn; repeat split; intros; lia|].
  rewrite deep_transitions_cons.
  destruct IH as [IH0 [IH1 IH2]].
  unfold len in *. cbn [List.length] in *. unfold first_soc in *.
  cbn [hd] in *. unfold deep_discharge. cbn [fst snd].
  destruct (90 <=? soc a) eqn:Ha; [destruct (soc b <=? 20) eqn:Hb|];
    cbn [andb].
  - apply Z.leb_le in Ha, Hb.
    assert (2 * deep_transitions (b :: r)
            <= Z.of_nat (S (List.length r)) - 1)
      by (apply IH2; [lia|discriminate]).
    lia.
  - lia.
  - apply Z.leb_gt in Ha. lia.
Qed.

(** A deep discharge moves the state of charge by 70 points at least. *)
Lemma deep_transitions_cost (series : list soc_reading) :
  70 * deep_transitions series <= total_soc_movement series.
Proof.
  induction series as [|a l IH]; [cbn; lia|].
  destruct l as [|b r]; [cbn; lia|].
  rewrite deep_transitions_cons, total_soc_movement_cons.
  unfold deep_discharge. cbn [fst snd].
  destruct (90 <=? soc a) eqn:Ha; [destruct (soc b <=? 20) eqn:Hb|];
    cbn [andb]; lia.
Qed.

(** What [count_cycles_from_soc] returns, when it returns. *)
Lemma count_cycles_result (series : list soc_reading) (st st' : store)
      (c : cycles) :
  count_cycles_from_soc series st = (Ok c, st') ->
  deep_cycles c = (if len series <? 2 then 0 else deep_transitions series)
  /\ (2 <= len series ->
      exists q, truediv (Int (total_soc_movement series)) (Int 100) = Ok q
                /\ equivalent_full_cycles c = Float (py_round q 2)).
Proof.
  destruct (len series <? 2) eqn:Hlen.
  - apply Z.ltb_lt in Hlen. unfold count_cycles_from_soc.
    replace (negb (truthy series) || (len series <? 2)) with true
      by (symmetry; apply orb_true_iff; right; now apply Z.ltb_lt).
    intros E. injection E as <- _. split; [reflexivity|lia].
  - apply Z.ltb_ge in Hlen. rewrite count_cycles_loops by exact Hlen.
    destruct (truediv (Int (total_soc_movement series)) (Int 100)) as [q|];
      [|discriminate].
    cbn. intros E. injection E as <- _. split; [reflexivity|].
    intros _. now exists q.
Qed.

(** X11: the deep cycles that [count_cycles_from_soc] reports are
    never negative, at most half as many as the samples, and each of them
    accounts for at least 70 points of the total movement of the state of
    charge (the total that [equivalent_full_cycles] is computed from). *)
Theorem count_cycles_deep_bounds (series : list soc_reading)
        (st st' : store) (c : cycles) :
  count_cycles_from_soc series st = (Ok c, st') ->
  0 <= deep_cycles c
  /\ 2 * deep_cycles c <= len series
  /\ 70 * deep_cycles c <= total_soc_movement series.
Proof.
  intros H. destruct (count_cycles_result series st st' c H) as [-> _].
  pose proof (deep_transitions_spaced series) as [H0 [H1 _]].
  pose proof (deep_transitions_cost series).
  pose proof (total_soc_movement_nonneg series).
  destruct (len series <? 2) eqn:E; [|lia].
  unfold len in *. lia.
Qed.

Lemma count_cycles_deep_bounds_witness :
  0 <= 1 /\ 2 * 1 <= 4 /\ 70 * 1 <= 210.
Proof.
  exact (count_cycles_deep_bounds Fixtures.soc_series
           (fresh Fixtures.empty_log) (fresh Fixtures.empty_log)
           {| equivalent_full_cycles := Float 2.1; deep_cycles := 1 |}
           eq_refl).
Defined.

(** On a series that never rises the moves add up to the drop from the
    first sample to the last. *)
Lemma never_rises_total (series : list soc_reading) :
  never_rises series ->
  total_soc_movement series = first_soc series - last_soc series.
Proof.
  unfold never_rises, first_soc, last_soc.
  induction series as [|a l IH]; [reflexivity|].
  destruct l as [|b r]; [cbn; lia|].
  change (consecutive_pairs (a :: b :: r))
    with ((a, b) :: consecutive_pairs (b :: r)).
  intros H. inversion H as [|? ? Hab Hr]; subst. cbn [fst snd] in Hab.
  rewrite total_soc_movement_cons, (IH Hr).
  change (last (a :: b :: r)) with (last (b :: r)). cbn [hd]. lia.
Qed.

Lemma never_falls_total (series : list soc_reading) :
  never_falls series ->
  total_soc_movement series = last_soc series - first_soc series.
Proof.
  unfold never_falls, first_soc, last_soc.
  induction series as [|a l IH]; [reflexivity|].
  destruct l as [|b r]; [cbn; lia|].
  change (consecutive_pairs (a :: b :: r))
    with ((a, b) :: consecutive_pairs (b :: r)).
  intros H. inversion H as [|? ? Hab Hr]; subst. cbn [fst snd] in Hab.
  rewrite total_soc_movement_cons, (IH Hr).
  change (last (a :: b :: r)) with (last (b :: r)). cbn [hd]. lia.
Qed.

(** X12: on a series that only falls, or only rises, the samples in
    between do not matter to [equivalent_full_cycles]: it is
    [round(|last - first| / 100, 2)], however often the discharge (or
    the charge) was sampled. *)
Theorem count_cycles_monotone (series : list soc_reading) (st : store) :
  2 <= len series ->
  never_rises series \/ never_falls series ->
  count_cycles_from_soc series st =
    (outcome_map
       (fun q => {| equivalent_full_cycles := Float (py_round q 2);
                    deep_cycles := deep_transitions series |})
       (truediv (Int (Z.abs (last_soc series - first_soc series))) (Int 100)),
     st).
Proof.
  intros Hlen Hmono. rewrite count_cycles_loops by exact Hlen.
  pose proof (total_soc_movement_nonneg series) as Hpos.
  replace (Z.abs (last_soc series - first_soc series))
    with (total_soc_movement series); [reflexivity|].
  destruct Hmono as [H|H].
  - rewrite (never_rises_total series H) in *. lia.
  - rewrite (never_falls_total series H) in *. lia.
Qed.

Lemma count_cycles_monotone_witness :
  count_cycles_from_soc Cases.discharge (fresh Fixtures.empty_log) =
    (Ok {| equivalent_full_cycles := Float 0.77; deep_cycles := 0 |},
     fresh Fixtures.empty_log)
  /\ count_cycles_from_soc [Fixtures.mksoc 95; Fixtures.mksoc 18]
       (fresh Fixtures.empty_log) =
     (Ok {| equivalent_full_cycles := Float 0.77; deep_cycles := 1 |},
      fresh Fixtures.empty_log).
Proof.
  split.
  - apply (count_cycles_monotone Cases.discharge); [discriminate|].
    left. repeat constructor; discriminate.
  - apply (count_cycles_monotone [Fixtures.mksoc 95; Fixtures.mksoc 18]);
      [discriminate|].
    left. repeat constructor; discriminate.
Defined.

Lemma total_soc_movement_snoc (m : list soc_reading) (b a : soc_reading) :
  total_soc_movement ((m ++ [b]) ++ [a])
  = total_soc_movement (m ++ [b]) + Z.abs (soc a - soc b).
Proof.
  induction m as [|c m IH]; [cbn; lia|].
  destruct m as [|d m]; [cbn; lia|].
  change (((c :: d :: m) ++ [b]) ++ [a])
    with (c :: d :: (m ++ [b]) ++ [a]).
  change ((c :: d :: m) ++ [b]) with (c :: d :: m ++ [b]).
  rewrite !total_soc_movement_cons.
  change (d :: (m ++ [b]) ++ [a]) with (((d :: m) ++ [b]) ++ [a]).
  rewrite IH. cbn [app]. lia.
Qed.

(** Read backwards, a series moves as much. *)
Lemma total_soc_movement_rev (series : list soc_reading) :
  total_soc_movement (rev series) = total_soc_movement series.
Proof.
  induction series as [|a l IH]; [reflexivity|].
  destruct l as [|b r]; [reflexivity|].
  rewrite total_soc_movement_cons, <- IH. cbn [rev].
  rewrite total_soc_movement_snoc. lia.
Qed.

(** X13: charging and discharging count alike: a series read backwards
    gets the same [equivalent_full_cycles] (its deep cycles are in
    general others). *)
Theorem count_cycles_reversed (series : list soc_reading) (st : store) :
  outcome_map equivalent_full_cycles
    (fst (count_cycles_from_soc (rev series) st))
  = outcome_map equivalent_full_cycles
      (fst (count_cycles_from_soc series st)).
Proof.
  destruct (Z.lt_ge_cases (len series) 2) as [Hlen|Hlen].
  - destruct series as [|a [|b r]]; try reflexivity.
    unfold len in Hlen. cbn [List.length] in Hlen. lia.
  - rewrite !count_cycles_loops, total_soc_movement_rev;
      [|exact Hlen|unfold len in *; now rewrite length_rev].
    cbn [fst].
    destruct (truediv (Int (total_soc_movement series)) (Int 100));
      reflexivity.
Qed.

Example count_cycles_reversed_deep :
  fst (count_cycles_from_soc [Fixtures.mksoc 95; Fixtures.mksoc 18]
         (fresh Fixtures.empty_log))
  = Ok {| equivalent_full_cycles := Float 0.77; deep_cycles := 1 |}
  /\ fst (count_cycles_from_soc (rev [Fixtures.mksoc 95; Fixtures.mksoc 18])
            (fresh Fixtures.empty_log))
     = Ok {| equivalent_full_cycles := Float 0.77; deep_cycles := 0 |}.
Proof. split; reflexivity. Qed.

(** ** The report *)

Lemma string_append_assoc (a b c : string) :
  ((a ++ b) ++ c)%string = (a ++ (b ++ c))%string.
Proof. induction a as [|x a IH]; cbn; [reflexivity|now rewrite IH]. Qed.

(** Counting fails on a total with no hundredth among the floats, and on
    nothing else. *)
Lemma count_cycles_outcome (series : list soc_reading) (st : store) (e : exn) :
  fst (count_cycles_from_soc series st) = Raise e
  <-> e = OverflowError
      /\ 2 <= len series
      /\ 100 * DBL_OVERFLOW <= total_soc_movement series.
Proof.
  destruct (Z.lt_ge_cases (len series) 2) as [Hlen|Hlen].
  - unfold count_cycles_from_soc.
    replace (negb (truthy series) || (len series <? 2)) with true
      by (symmetry; apply orb_true_iff; right; now apply Z.ltb_lt).
    cbn. split; [discriminate|lia].
  - rewrite count_cycles_loops by exact Hlen.
    pose proof (total_soc_movement_nonneg series) as Hpos.
    cbn [fst truediv]. unfold int_truediv.
    change (100 =? 0) with false. cbv iota. change (Z.abs 100) with 100.
    rewrite (Z.abs_eq _ Hpos).
    destruct (100 * DBL_OVERFLOW <=? total_soc_movement series) eqn:Ho;
      cbn [outcome_map].
    + apply Z.leb_le in Ho. split.
      * intros E. injection E as <-. auto.
      * now intros [-> _].
    + apply Z.leb_gt in Ho. split; [discriminate|lia].
Qed.

(** The checks fail on a cell count with no float, and on nothing else. *)
Lemma detected_outcome (r : raw) (e : exn) :
  detected r = Raise e <-> e = OverflowError /\ cell_count_overflows r.
Proof.
  unfold detected.
  destruct (cell_checks_defined r) as [a ->]. cbn [outcome_bind].
  destruct (pack_voltage_check_outcome r) as [Hyes Hno].
  split.
  - intros E.
    assert (Ho : cell_count_overflows r).
    { unfold cell_count_overflows.
      destruct (pack_voltage r) as [v|] eqn:Hv;
        [|unfold pack_voltage_check in E; rewrite Hv in E; discriminate].
      destruct (cell_count r) as [n|] eqn:Hn;
        [|unfold pack_voltage_check in E; rewrite Hv, Hn in E; discriminate].
      destruct (Z.lt_ge_cases n DBL_OVERFLOW) as [Hlt|Hge];
        [|exists v, n; auto].
      exfalso. destruct Hno as [p Hp]; [|rewrite Hp in E; discriminate].
      unfold cell_count_overflows. intros [v' [n' [Ev [En Hge]]]].
      rewrite Hv in Ev. rewrite Hn in En. injection En as <-. lia. }
    split; [|exact Ho]. rewrite (Hyes Ho) in E. cbn in E. congruence.
  - intros [-> Ho]. now rewrite (Hyes Ho).
Qed.

Section ReportFurther.

Variable datetime : Type.
Variable isoformat : datetime -> string.
Variable str_float : float -> string.

Local Abbreviation report_at := (generate_report datetime isoformat str_float).

(** [generate_report] computes [report_of]: its result is a function of
    the log and of the text of the time. *)
Lemma generate_report_run (utcnow : datetime) (st : store) :
  fst (report_at utcnow st) = report_of str_float (isoformat utcnow) (input st).
Proof.
  unfold generate_report, report_of, bind.
  rewrite compute_soh_run.
  destruct (soh_of (input st)) as [s|e]; [|reflexivity].
  cbn [outcome_bind].
  unfold get_default at 1. fold (series_of (input st)).
  assert (Hs : forall st' : store,
             match soc_timeseries (input st) with
             | Some v => (Ok v, st')
             | None => (Ok [], st')
             end = (Ok (series_of (input st)), st')).
  { intros st'. unfold series_of. now destruct (soc_timeseries (input st)). }
  rewrite Hs.
  rewrite (reads_count_cycles (series_of (input st)) st).
  destruct (fst (count_cycles_from_soc (series_of (input st))
                   (fresh (input st)))) as [c|e]; [|reflexivity].
  cbn [outcome_bind].
  destruct (detect_anomalies_run st) as [l ->].
  destruct (detected (input st)) as [a|e]; [|reflexivity].
  cbn [outcome_bind]. unfold get_default, ret. cbn [input fst].
  unfold explanation_of.
  rewrite !string_append_assoc.
  destruct (vehicle_id (input st)); reflexivity.
Qed.

(** When and why [generate_report] fails. *)
Lemma generate_report_outcome (utcnow : datetime) (st : store) (e : exn) :
  fst (report_at utcnow st) = Raise e
  <-> fst (compute_soh st) = Raise e
      \/ ((exists s, fst (compute_soh st) = Ok s)
          /\ e = OverflowError
          /\ (series_overflows (input st)
              \/ cell_count_overflows (input st))).
Proof.
  rewrite generate_report_run, compute_soh_run. unfold report_of.
  cbn [fst].
  destruct (soh_of (input st)) as [s|e0]; cbn [outcome_bind].
  2:{ split; [intros E; injection E as <-; now left|].
      intros [H|[[s Hs] _]]; [injection H as <-; reflexivity|discriminate]. }
  pose proof (count_cycles_outcome (series_of (input st))
                (fresh (input st))) as Hc.
  pose proof (detected_outcome (input st)) as Hd.
  unfold series_overflows.
  destruct (fst (count_cycles_from_soc (series_of (input st))
                   (fresh (input st)))) as [c|e1]; cbn [outcome_bind].
  - destruct (detected (input st)) as [a|e2]; cbn [outcome_bind].
    + split; [discriminate|].
      intros [H|[_ [-> [H|H]]]]; [discriminate| |].
      * assert (E : Ok c = Raise OverflowError) by (apply Hc; tauto).
        discriminate.
      * assert (E : Ok a = Raise OverflowError) by (apply Hd; tauto).
        discriminate.
    + split.
      * intros E. injection E as <-.
        destruct (proj1 (Hd e2) eq_refl) as [-> Ho].
        right. split; [now exists s|]. split; [reflexivity|now right].
      * intros [H|[_ [-> _]]]; [discriminate|].
        destruct (proj1 (Hd e2) eq_refl) as [-> _]. reflexivity.
  - split.
    + intros E. injection E as <-.
      destruct (proj1 (Hc e1) eq_refl) as [-> Ho].
      right. split; [now exists s|]. split; [reflexivity|now left].
    + intros [H|[_ [-> _]]]; [discriminate|].
      destruct (proj1 (Hc e1) eq_refl) as [-> _]. reflexivity.
Qed.

(** A well-formed log gets a state of health. *)
Lemma soh_of_well_formed (r : raw) :
  well_formed r -> exists s, soh_of r = Ok s.
Proof.
  intros [[n [Hn Hpos]] [Hhist Hcells]].
  destruct (soh_of r) as [s|e] eqn:E; [now exists s|exfalso].
  apply soh_of_failure in E.
  2:{ split; [intros h Hh; now destruct (Hhist h Hh)|exact Hcells]. }
  destruct E as [[_ [n' [Hn' Hz]]]|[[_ Hnone]|[_ [h [c [Hh [Hin Hc]]]]]]].
  - rewrite Hn in Hn'. injection Hn' as <-.
    rewrite (positive_nonzero n Hpos) in Hz. discriminate.
  - congruence.
  - destruct (Hhist h Hh) as [Hall _].
    rewrite Forall_forall in Hall. exact (Hall c Hin Hc).
Qed.

(** X14: a report that [generate_report] returns is put together from
    what the three functions give for the same log: its [soh] is the
    result of [compute_soh], its [cycles] that of [count_cycles_from_soc]
    on [soc_timeseries] (on the empty list when the key is missing), its
    [anomalies] that of [detect_anomalies]; [vehicle_id] defaults to
    "Unknown", [generated_at] is the text of the time, and the explanation
    is the sentence built from the three parts. *)
Theorem generate_report_parts
        (utcnow : datetime) (st : store) (rep : Report.report) :
  fst (report_at utcnow st) = Ok rep ->
  fst (compute_soh st) = Ok (Report.soh rep)
  /\ fst (count_cycles_from_soc (series_of (input st)) st)
     = Ok (Report.cycles rep)
  /\ fst (detect_anomalies st) = Ok (Report.anomalies rep)
  /\ Report.vehicle_id rep
     = match vehicle_id (input st) with
       | Some v => v
       | None => "Unknown"%string
       end
  /\ Report.generated_at rep = isoformat utcnow
  /\ Report.explanation rep
     = explanation_of str_float (Report.soh rep) (Report.cycles rep)
         (Report.anomalies rep).
Proof.
  rewrite generate_report_run, compute_soh_run,
    (reads_count_cycles (series_of (input st)) st).
  destruct (detect_anomalies_run st) as [l ->].
  unfold report_of. cbn [fst].
  destruct (soh_of (input st)) as [s|]; [|discriminate].
  cbn [outcome_bind].
  destruct (fst (count_cycles_from_soc (series_of (input st))
                   (fresh (input st)))) as [c|]; [|discriminate].
  cbn [outcome_bind].
  destruct (detected (input st)) as [a|]; [|discriminate].
  cbn [outcome_bind]. intros E. injection E as <-.
  repeat split.
Qed.

(** X15: [generate_report] fails exactly when [compute_soh] fails, and
    then with its exception, or else when the total movement of the state
    of charge or the cell count is too large for a float, and then with
    [OverflowError]; a failure of [compute_soh] comes before the other
    two.  (Logs are of type [raw]: every cell has its voltage and its
    temperature, every sample its state of charge, and the numeric fields
    hold numbers.) *)
Theorem generate_report_failure (utcnow : datetime) (st : store) (e : exn) :
  fst (report_at utcnow st) = Raise e
  <-> fst (compute_soh st) = Raise e
      \/ ((exists s, fst (compute_soh st) = Ok s)
          /\ e = OverflowError
          /\ (series_overflows (input st)
              \/ cell_count_overflows (input st))).
Proof. apply generate_report_outcome. Qed.

(** X16: on a well-formed log whose state of charge stays between 0 and
    100 (the series no longer than a Python list can be) and whose cell
    count has a float, [generate_report] returns a report. *)
Theorem generate_report_succeeds (utcnow : datetime) (st : store) :
  report_ready (input st) ->
  exists rep, fst (report_at utcnow st) = Ok rep.
Proof.
  intros [Hwf [Hseries Hcount]].
  destruct (fst (report_at utcnow st)) as [rep|e] eqn:E; [now exists rep|].
  exfalso. apply generate_report_outcome in E.
  destruct E as [E|[_ [_ [[Hlen Ho]|Ho]]]].
  - rewrite compute_soh_run in E. cbn [fst] in E.
    destruct (soh_of_well_formed _ Hwf) as [s Hs]. congruence.
  - unfold series_of in Hlen, Ho.
    destruct (soc_timeseries (input st)) as [l|];
      [|unfold len in Hlen; cbn in Hlen; lia].
    destruct (Hseries l eq_refl) as [Hp Hmax].
    pose proof (total_soc_movement_bound l Hp) as Hb.
    pose proof ssize_below_overflow as Hs. lia.
  - exact (Hcount Ho).
Qed.

(** X17: with no [soc_timeseries], or one of fewer than two samples, the
    report counts zero cycles, and its explanation prints the int:
    "Total equivalent cycles: 0." *)
Theorem generate_report_short_series
        (utcnow : datetime) (st : store) (rep : Report.report) :
  len (series_of (input st)) < 2 ->
  fst (report_at utcnow st) = Ok rep ->
  Report.cycles rep = {| equivalent_full_cycles := Int 0; deep_cycles := 0 |}
  /\ Report.explanation rep
     = ("Battery SOH is "
          ++ str_number str_float (soh_percent (Report.soh rep))
          ++ "% (calculated via " ++ method (Report.soh rep) ++ "). "
          ++ "Total equivalent cycles: 0. "
          ++ "Detected " ++ str_int (len (Report.anomalies rep))
          ++ " anomalies.")%string.
Proof.
  intros Hlen. rewrite generate_report_run. unfold report_of.
  destruct (soh_of (input st)) as [s|]; [|discriminate].
  cbn [outcome_bind].
  unfold count_cycles_from_soc.
  replace (negb (truthy (series_of (input st)))
           || (len (series_of (input st)) <? 2)) with true
    by (symmetry; apply orb_true_iff; right; now apply Z.ltb_lt).
  cbn [ret fst outcome_bind].
  destruct (detected (input st)) as [a|]; [|discriminate].
  cbn [outcome_bind]. intros E. injection E as <-.
  split; reflexivity.
Qed.

End ReportFurther.

Lemma generate_report_parts_witness :
  exists rep,
    fst (generate_report unit (fun _ => "2024-05-01T12:00:00"%string)
           (fun _ => "94.0"%string) tt (fresh Cases.healthy_log)) = Ok rep
    /\ fst (compute_soh (fresh Cases.healthy_log)) = Ok (Report.soh rep)
    /\ Report.vehicle_id rep = "VIN-OK"%string
    /\ Report.generated_at rep = "2024-05-01T12:00:00"%string.
Proof.
  eexists. split; [reflexivity|].
  destruct (generate_report_parts unit (fun _ => "2024-05-01T12:00:00"%string)
              (fun _ => "94.0"%string) tt (fresh Cases.healthy_log) _ eq_refl)
    as [Hsoh [_ [_ [Hid [Hat _]]]]].
  split; [exact Hsoh|]. split; [exact Hid|exact Hat].
Defined.

Lemma generate_report_succeeds_witness :
  exists rep,
    fst (generate_report unit (fun _ => "2024-05-01T12:00:00"%string)
           (fun _ => "94.0"%string) tt (fresh Cases.healthy_log)) = Ok rep.
Proof.
  apply (generate_report_succeeds unit (fun _ => "2024-05-01T12:00:00"%string)
           (fun _ => "94.0"%string) tt (fresh Cases.healthy_log)).
  split; [|split].
  - split; [|split].
    + exists 75.0%float. split; reflexivity.
    + intros h E. discriminate.
    + intros cs E. injection E as <-. discriminate.
  - intros l E. injection E as <-. split.
    + repeat constructor; discriminate.
    + discriminate.
  - intros [v [n [_ [E Hn]]]]. injection E as <-. revert Hn. apply Z.lt_nge.
    reflexivity.
Defined.

Lemma generate_report_short_series_witness :
  len (series_of Fixtures.empty_log) < 2
  /\ exists rep,
       fst (generate_report unit (fun _ => "2024-05-01T12:00:00"%string)
              (fun _ => "0.0"%string) tt (fresh Fixtures.empty_log)) = Ok rep
       /\ Report.cycles rep
          = {| equivalent_full_cycles := Int 0; deep_cycles := 0 |}
       /\ Report.explanation rep
          = "Battery SOH is 0% (calculated via unknown). Total equivalent cycles: 0. Detected 0 anomalies."%string.
Proof.
  split; [reflexivity|]. eexists. split; [reflexivity|].
  apply (generate_report_short_series unit
           (fun _ => "2024-05-01T12:00:00"%string) (fun _ => "0.0"%string) tt
           (fresh Fixtures.empty_log)); reflexivity.
Defined.

Lemma generate_report_failure_witness :
  fst (generate_report unit (fun _ => "2024-05-01T12:00:00"%string)
         (fun _ => "0.0"%string) tt (fresh Cases.huge_cell_count))
  = Raise OverflowError
  /\ fst (generate_report unit (fun _ => "2024-05-01T12:00:00"%string)
            (fun _ => "0.0"%string) tt (fresh Cases.zero_nominal))
     = Raise ZeroDivisionError.
Proof.
  split.
  - apply (proj2 (generate_report_failure unit
                    (fun _ => "2024-05-01T12:00:00"%string)
                    (fun _ => "0.0"%string) tt (fresh Cases.huge_cell_count)
                    OverflowError)).
    right. split; [eexists; reflexivity|]. split; [reflexivity|]. right.
    exists 350.0%float, (2 ^ 1024). repeat split. discriminate.
  - apply (proj2 (generate_report_failure unit
                    (fun _ => "2024-05-01T12:00:00"%string)
                    (fun _ => "0.0"%string) tt (fresh Cases.zero_nominal)
                    ZeroDivisionError)).
    left. reflexivity.
Defined.
